(** * GitGuard AI: the review workflow and its human approval step

    A shallow embedding of [graph.py] (the Poster node and the graph
    construction) and of [agent.py] (the Reviewer node).  The three external
    collaborators (the diff fetcher, the structured LLM chain and the posting
    tool) are kept abstract: a node is a tree of collaborator invocations,
    and a node is run against an arbitrary environment that answers every
    invocation with a reply or with a raised exception. *)

From Stdlib Require Import ZArith.
From stdpp Require Import base option list strings gmap.

(** ** Data model *)

Module State.

(** Modelled from the spec: the [Severity] enumeration of [state.py], which
    is not among the sources ("enumerated {critical, major, minor,
    nitpick}"). *)
Inductive Severity : Type := critical | major | minor | nitpick.

Definition severity_value (v : Severity) : string :=
  match v with
  | critical => "critical"
  | major => "major"
  | minor => "minor"
  | nitpick => "nitpick"
  end.

(** Modelled from the spec: the [PullRequestComment] model of [state.py]
    (one per identified issue: file path, line number, body, severity). *)
Record PullRequestComment : Type := mkComment {
  file_path : string;
  line_number : Z;
  body : string;
  severity : Severity
}.

(** A status entry of the message log: a (role, text) pair. *)
Definition message : Type := string * string.

(** Modelled from the spec: the [ReviewState] model of [state.py].
    [pr_diff] is an optional text ([None] in Python is [None] here). *)
Record ReviewState : Type := mkState {
  repo_name : string;
  pr_number : Z;
  pr_diff : option string;
  proposed_comments : list PullRequestComment;
  review_approved : bool;
  messages : list message
}.

(** Modelled from the spec: the record a run is created with,
    "[repo_name]/[pr_number] set and all else at defaults". *)
Definition new_state (repo : string) (pr : Z) : ReviewState :=
  {| repo_name := repo; pr_number := pr; pr_diff := None;
     proposed_comments := []; review_approved := false; messages := [] |}.

(** A value of the plain mapping [model_dump] produces. *)
Inductive dumped : Type :=
| DStr (s : string)
| DInt (z : Z).

(** [c.model_dump()]: the fields of the model as a dict, in declaration
    order. *)
Definition model_dump (c : PullRequestComment) : list (string * dumped) :=
  [ ("file_path", DStr (file_path c));
    ("line_number", DInt (line_number c));
    ("body", DStr (body c));
    ("severity", DStr (severity_value (severity c))) ].

End State.
Import State.

(** ** Python truthiness, as used by the two [if not ...] tests *)

Definition str_truthy (s : string) : bool :=
  match s with
  | EmptyString => false
  | String _ _ => true
  end.

(** [bool(x)] for [x : Optional[str]]: [None] and [""] are both falsy. *)
Definition opt_str_truthy (o : option string) : bool :=
  match o with
  | None => false
  | Some s => str_truthy s
  end.

(** [bool(l)] for a list: only the empty list is falsy. *)
Definition list_truthy {A : Type} (l : list A) : bool :=
  match l with
  | [] => false
  | _ :: _ => true
  end.

(** ** Collaborators and node programs *)

(** [ReviewResponse] of [agent.py]: the wrapper schema the chain returns. *)
Record ReviewResponse : Type := mkResponse {
  comments : list PullRequestComment
}.

(** The constructor of [ReviewResponse]: the [comments] field is optional and
    [default_factory=list] fills it with a fresh empty list. *)
Definition ReviewResponse_new (cs : option (list PullRequestComment))
  : ReviewResponse :=
  {| comments := default [] cs |}.

(** The fixed system instruction of the Reviewer. *)
Definition system_prompt : string :=
  "You are a strict Senior Code Reviewer.
    Analyze the git diff provided below for:
    1. Security Vulnerabilities (SQLi, XSS, Secrets) - Severity: Critical
    2. Logic Bugs & Race Conditions - Severity: Major
    3. Performance Bottlenecks - Severity: Major
    4. Code Style & Best Practices (PEP8, DRY) - Severity: Minor/Nitpick

    Output a structured list of comments. Only comment on changed lines.
    If the code looks good, return an empty list.
    ".

(** The chat template of the Reviewer: the system instruction and the user
    message with its two placeholders. *)
Definition prompt : list (string * string) :=
  [ ("system", system_prompt);
    ("user", "Repository: {repo}
Diff:
{diff}") ].

(** One invocation of an external collaborator, with its arguments.  The
    chain is the template piped into the structured LLM; it is invoked on
    the values of the two placeholders. *)
Inductive call : Type :=
| fetch_pr_diff (repo : string) (pr : Z)
| chain (template : list (string * string)) (repo : string) (diff : string)
| post_pr_review (repo : string) (pr : Z)
    (payload : list (list (string * dumped))).

(** What each collaborator hands back. *)
Definition reply (c : call) : Type :=
  match c with
  | fetch_pr_diff _ _ => string
  | chain _ _ _ => ReviewResponse
  | post_pr_review _ _ _ => string
  end.

(** A node body: it returns, or invokes a collaborator and goes on with the
    reply.  There is no handler construct: neither source file has a
    [try]. *)
Inductive node (A : Type) : Type :=
| Return (a : A)
| Invoke (c : call) (k : reply c -> node A).
Arguments Return {A} a.
Arguments Invoke {A} c k.

Fixpoint node_bind {A B : Type} (m : node A) (f : A -> node B) : node B :=
  match m with
  | Return a => f a
  | Invoke c k => Invoke c (fun r => node_bind (k r) f)
  end.

#[global] Instance node_ret : MRet node := @Return.
#[global] Instance node_mbind : MBind node :=
  fun A B f m => node_bind m f.

(** [tool.invoke(args)] as a one-call program. *)
Definition invoke (c : call) : node (reply c) := Invoke c Return.

(** ** Partial-state updates *)

(** A value stored under a key of a state-update dict. *)
Inductive value : Type :=
| VText (s : string)
| VInt (z : Z)
| VBool (b : bool)
| VComments (cs : list PullRequestComment)
| VMessages (ms : list message).

(** The dict a node returns, keyed by state field name. *)
Abbreviation update := (gmap string value).

(** ** [graph.py]: the Poster *)

Definition rejection_text : string :=
  "❌ Review NOT approved by human. No comments posted.".
Definition no_issues_text : string :=
  "✅ No issues found. Skipping comment posting.".
Definition success_marker : string := "🚀 ".

Definition poster_node (state : ReviewState) : node update :=
  if negb (review_approved state) then
    mret {[ "messages" := VMessages [("ai", rejection_text)] ]}
  else if negb (list_truthy (proposed_comments state)) then
    mret {[ "messages" := VMessages [("ai", no_issues_text)] ]}
  else
    let comments_payload := map model_dump (proposed_comments state) in
    result ← invoke (post_pr_review (repo_name state) (pr_number state)
                                    comments_payload);
    mret {[ "messages" := VMessages [("ai", success_marker +:+ result)] ]}.

(** ** [agent.py]: the Reviewer *)

(** The text of an [Optional[str]] that passed the truthiness test. *)
Definition as_str (o : option string) : string := default "" o.

Definition reviewer_node (state : ReviewState) : node update :=
  let current_diff := pr_diff state in
  current_diff ←
    (if negb (opt_str_truthy current_diff) then
       invoke (fetch_pr_diff (repo_name state) (pr_number state))
     else mret (as_str current_diff));
  result ← invoke (chain prompt (repo_name state) current_diff);
  mret {[ "pr_diff" := VText current_diff;
          "proposed_comments" := VComments (comments result) ]}.

(** The second half of [reviewer_node] (steps 2 to 5), entered with the diff
    in hand; used to state what the body unfolds to. *)
Definition analysis (state : ReviewState) (d : string) : node update :=
  Invoke (chain prompt (repo_name state) d)
    (fun result =>
       Return {[ "pr_diff" := VText d;
                 "proposed_comments" := VComments (comments result) ]}).

(** The record with its [pr_diff] field set to [d]. *)
Definition with_pr_diff (d : option string) (s : ReviewState) : ReviewState :=
  {| repo_name := repo_name s; pr_number := pr_number s; pr_diff := d;
     proposed_comments := proposed_comments s;
     review_approved := review_approved s; messages := messages s |}.

(** ** Running a node against its collaborators *)

(** A raised Python exception. *)
Inductive exn : Type := Exception (what : string).

Inductive outcome (A : Type) : Type :=
| Returned (a : A)
| Raised (e : exn).
Arguments Returned {A} a.
Arguments Raised {A} e.

(** What a run leaves behind: its outcome, the collaborators' world and the
    invocations made, oldest first. *)
Record ran (W A : Type) : Type := mkRan {
  out : outcome A;
  world : W;
  calls : list call
}.
Arguments mkRan {W A} out world calls.
Arguments out {W A} r.
Arguments world {W A} r.
Arguments calls {W A} r.

(** The collaborators: every invocation is answered, in the current world,
    by a reply or by an exception, and moves the world on. *)
Definition collaborators (W : Type) : Type :=
  forall c : call, W -> outcome (reply c) * W.

(** Python's evaluation of a node body: an exception raised by an invocation
    leaves the body at once, and nothing after it is evaluated. *)
Fixpoint run {W A : Type} (answer : collaborators W) (p : node A) (w : W)
  : ran W A :=
  match p with
  | Return a => mkRan (Returned a) w []
  | Invoke c k =>
      match answer c w with
      | (Returned r, w') =>
          let rest := run answer (k r) w' in
          mkRan (out rest) (world rest) (c :: calls rest)
      | (Raised e, w') => mkRan (Raised e) w' [c]
      end
  end.

Definition is_fetch (c : call) : bool :=
  match c with fetch_pr_diff _ _ => true | _ => false end.
Definition is_chain (c : call) : bool :=
  match c with chain _ _ _ => true | _ => false end.
Definition is_post (c : call) : bool :=
  match c with post_pr_review _ _ _ => true | _ => false end.

(** How many of the invocations in a log satisfy [f]. *)
Definition count (f : call -> bool) (log : list call) : nat :=
  length (List.filter f log).

(** Every dict the node can return, whatever the collaborators reply. *)
Fixpoint returns_all {A : Type} (P : A -> Prop) (p : node A) : Prop :=
  match p with
  | Return a => P a
  | Invoke c k => forall r : reply c, returns_all P (k r)
  end.

(** ** [graph.py]: graph construction *)

Definition START : string := "__start__".
Definition END : string := "__end__".

(** The builder: named nodes and directed edges, in the order added. *)
Record StateGraph : Type := mkGraph {
  nodes : gmap string (ReviewState -> node update);
  edges : list (string * string)
}.

Definition StateGraph_new : StateGraph := {| nodes := ∅; edges := [] |}.

Definition add_node (name : string) (fn : ReviewState -> node update)
    (g : StateGraph) : StateGraph :=
  {| nodes := <[name := fn]> (nodes g); edges := edges g |}.

Definition add_edge (src dst : string) (g : StateGraph) : StateGraph :=
  {| nodes := nodes g; edges := edges g ++ [(src, dst)] |}.

(** The compiled runner: the graph and the breakpoints.  The checkpointer is
    the store threaded through [graph_invoke] and [graph_resume] below. *)
Record CompiledGraph : Type := mkCompiled {
  built : StateGraph;
  interrupt_before : list string
}.

Definition compile (g : StateGraph) (breakpoints : list string)
  : CompiledGraph :=
  {| built := g; interrupt_before := breakpoints |}.

Definition builder : StateGraph :=
  add_edge "poster" END
    (add_edge "reviewer" "poster"
       (add_edge START "reviewer"
          (add_node "poster" poster_node
             (add_node "reviewer" reviewer_node StateGraph_new)))).

Definition graph : CompiledGraph := compile builder ["poster"].

(** ** The workflow engine

    [graph.py] builds and compiles the graph; the engine that runs it is the
    third-party graph runner, which is not among the sources.  It is
    modelled here as the spec describes it (sections 4.2, 4.4, 5 and 7):
    steps along the edges, an unconditional pause before a breakpoint node,
    the full record saved under the run identifier, a resume that continues
    from the paused point, node exceptions raised to the invoker. *)

(** Modelled from the spec: how a returned dict is folded into the state
    record ([state.py] declares the channels): every field is overwritten by
    the value under its key, except [messages], an append-only log. *)
Definition apply_update (u : update) (s : ReviewState) : ReviewState :=
  {| repo_name :=
       match u !! "repo_name" with Some (VText r) => r | _ => repo_name s end;
     pr_number :=
       match u !! "pr_number" with Some (VInt n) => n | _ => pr_number s end;
     pr_diff :=
       match u !! "pr_diff" with Some (VText d) => Some d | _ => pr_diff s end;
     proposed_comments :=
       match u !! "proposed_comments" with
       | Some (VComments cs) => cs
       | _ => proposed_comments s
       end;
     review_approved :=
       match u !! "review_approved" with
       | Some (VBool b) => b
       | _ => review_approved s
       end;
     messages :=
       match u !! "messages" with
       | Some (VMessages ms) => messages s ++ ms
       | _ => messages s
       end |}.

(** Modelled from the spec: the persisted snapshot of a run (the engine's
    checkpoint type is not among the sources): the full state record and
    the point the run is at, as the nodes due next. *)
Record Checkpoint : Type := mkCheckpoint {
  values : ReviewState;
  next : list string
}.

(** The checkpoint store, keyed by thread identifier. *)
Abbreviation store := (gmap string Checkpoint).

(** What the engine reports while it runs. *)
Inductive event : Type :=
| Entered (name : string)
| Called (c : call)
| Paused (name : string)
| Ended.

Inductive status : Type :=
| Finished
| Interrupted
| Failed (e : exn)
| RecursionLimit.

(** The nodes an edge leads to from [src]; [END] is not a node. *)
Definition successors (g : StateGraph) (src : string) : list string :=
  List.filter (fun dst => negb (String.eqb dst END))
    (map snd (List.filter (fun e => String.eqb (fst e) src) (edges g))).

(** The first node due that is a breakpoint, if any. *)
Definition breakpoint (g : CompiledGraph) (tasks : list string)
  : option string :=
  List.find (fun n => existsb (String.eqb n) (interrupt_before g)) tasks.

(** Modelled from the spec: the engine's bound on the steps of one call (a
    constant of the engine, not among the sources; 25 is its default).  The
    compiled graph needs two. *)
Definition recursion_limit : nat := 25.

(** Modelled from the spec: one step of the engine (not among the sources):
    the nodes due are run on the same snapshot, their dicts collected in
    order; the first exception ends the step. *)
Fixpoint run_tasks {W : Type} (answer : collaborators W) (g : StateGraph)
    (tasks : list string) (s : ReviewState) (w : W)
  : outcome (list update) * W * list event :=
  match tasks with
  | [] => (Returned [], w, [])
  | name :: rest =>
      match nodes g !! name with
      | None => run_tasks answer g rest s w
      | Some fn =>
          let r := run answer (fn s) w in
          let evs := Entered name :: map Called (calls r) in
          match out r with
          | Raised e => (Raised e, world r, evs)
          | Returned u =>
              match run_tasks answer g rest s (world r) with
              | (Returned us, w', evs') => (Returned (u :: us), w', evs ++ evs')
              | (Raised e, w', evs') => (Raised e, w', evs ++ evs')
              end
          end
      end
  end.

(** Modelled from the spec: the engine loop (not among the sources), from
    a checkpoint: the run is over when no node is due; it pauses before a
    due breakpoint node; otherwise the due nodes run, their dicts are folded
    into the record, and the nodes their edges lead to are due next; an
    exception of a node ends the call as a failure.  [resuming] is set on
    the first round of a resume, which "continues from the paused point":
    the breakpoint the run is paused at is not taken again. *)
Fixpoint pregel_loop {W : Type} (answer : collaborators W) (g : CompiledGraph)
    (limit : nat) (resuming : bool) (cp : Checkpoint) (w : W)
  : status * Checkpoint * W * list event :=
  match next cp with
  | [] => (Finished, cp, w, [Ended])
  | tasks =>
      match (if resuming then None else breakpoint g tasks) with
      | Some name => (Interrupted, cp, w, [Paused name])
      | None =>
          match limit with
          | O => (RecursionLimit, cp, w, [])
          | S limit' =>
              match run_tasks answer (built g) tasks (values cp) w with
              | (Raised e, w', evs) => (Failed e, cp, w', evs)
              | (Returned us, w', evs) =>
                  let cp' :=
                    {| values := foldl (fun s u => apply_update u s)
                                       (values cp) us;
                       next := remove_dups
                                 (concat (map (successors (built g)) tasks)) |}
                  in
                  match pregel_loop answer g limit' false cp' w' with
                  | (st, cp'', w'', evs') => (st, cp'', w'', evs ++ evs')
                  end
              end
          end
      end
  end.

(** Modelled from the spec: [graph.invoke(input, config)] of the engine (not
    among the sources): a new run on thread [thread], from the start state;
    the record is saved under the thread when the call stops. *)
Definition graph_invoke {W : Type} (answer : collaborators W)
    (g : CompiledGraph) (input : ReviewState) (thread : string)
    (db : store) (w : W) : status * store * W * list event :=
  let cp0 := {| values := input; next := successors (built g) START |} in
  match pregel_loop answer g recursion_limit false cp0 w with
  | (st, cp, w', evs) => (st, <[thread := cp]> db, w', evs)
  end.

(** Modelled from the spec: [graph.invoke(None, config)] of the engine (not
    among the sources): the resume of the run saved under [thread], which
    "loads the persisted state by run identifier" and continues; without a
    saved record there is nothing to run. *)
Definition graph_resume {W : Type} (answer : collaborators W)
    (g : CompiledGraph) (thread : string) (db : store) (w : W)
  : status * store * W * list event :=
  match db !! thread with
  | None => (Finished, db, w, [])
  | Some cp0 =>
      match pregel_loop answer g recursion_limit true cp0 w with
      | (st, cp, w', evs) => (st, <[thread := cp]> db, w', evs)
      end
  end.

(** Modelled from the spec: [graph.update_state(config, values)] of the
    engine (not among the sources): the external write into the saved
    record, between suspension and resume. *)
Definition update_state (thread : string) (u : update) (db : store) : store :=
  alter (fun cp => {| values := apply_update u (values cp); next := next cp |})
        thread db.

(** The approval decision of the external actor. *)
Definition approve (thread : string) (decision : bool) (db : store) : store :=
  update_state thread {[ "review_approved" := VBool decision ]} db.

(** What the external actor does while the run is suspended: it records a
    decision, or resumes the run as it is. *)
Definition external_write (thread : string) (decision : option bool)
    (db : store) : store :=
  match decision with
  | Some b => approve thread b db
  | None => db
  end.

(** The suspended record after that write. *)
Definition decided (decision : option bool) (s : ReviewState) : ReviewState :=
  match decision with
  | Some b => apply_update {[ "review_approved" := VBool b ]} s
  | None => s
  end.

(** ** The states of the Workflow Runner *)

Inductive phase : Type :=
| reviewing
| awaiting_approval
| posting
| done.

(** The runner states a run passes through, read off the engine's events
    (every run begins in the start state, which has no event). *)
Fixpoint path (evs : list event) : list phase :=
  match evs with
  | [] => []
  | Entered name :: evs' =>
      if String.eqb name "reviewer" then reviewing :: path evs'
      else if String.eqb name "poster" then posting :: path evs'
      else path evs'
  | Called _ :: evs' => path evs'
  | Paused _ :: evs' => awaiting_approval :: path evs'
  | Ended :: evs' => done :: path evs'
  end.

(** The nodes entered, in order. *)
Fixpoint entered (evs : list event) : list string :=
  match evs with
  | [] => []
  | Entered name :: evs' => name :: entered evs'
  | _ :: evs' => entered evs'
  end.

(** The collaborator invocations made, in order. *)
Fixpoint called (evs : list event) : list call :=
  match evs with
  | [] => []
  | Called c :: evs' => c :: called evs'
  | _ :: evs' => called evs'
  end.

(** The four components of what an engine call hands back. *)
Definition status_of {W : Type} (r : status * store * W * list event)
  : status := r.1.1.1.
Definition store_of {W : Type} (r : status * store * W * list event)
  : store := r.1.1.2.
Definition world_of {W : Type} (r : status * store * W * list event)
  : W := r.1.2.
Definition events_of {W : Type} (r : status * store * W * list event)
  : list event := r.2.

(** Modelled from the spec: a whole run, as the resume trigger drives it
    (the caller of the runner is not among the sources): the run is started
    on [thread]; if it pauses, the external actor optionally records the
    approval decision in the saved record and resumes the run.  The events
    of the two engine calls are put end to end. *)
Definition review_run {W : Type} (answer : collaborators W)
    (input : ReviewState) (thread : string) (decision : option bool)
    (db : store) (w : W) : status * store * W * list event :=
  match graph_invoke answer graph input thread db w with
  | (Interrupted, db1, w1, evs1) =>
      match graph_resume answer graph thread
              (external_write thread decision db1) w1
      with
      | (st, db2, w2, evs2) => (st, db2, w2, evs1 ++ evs2)
      end
  | stopped => stopped
  end.

(** ** Concrete collaborators, for examples *)

Module Demo.

Definition sqli_comment : PullRequestComment :=
  {| file_path := "app/db.py"; line_number := 17;
     body := "SQL built by string concatenation.";
     severity := critical |}.

Definition diff_text : string :=
  "+ query = 'SELECT * FROM users WHERE id=' + uid".

(** Collaborators that always reply; the world counts the invocations. *)
Definition helpful : collaborators nat :=
  fun c w =>
    match c with
    | fetch_pr_diff _ _ => (Returned diff_text, S w)
    | chain _ _ _ => (Returned (ReviewResponse_new (Some [sqli_comment])), S w)
    | post_pr_review _ _ payload => (Returned "Review posted.", S w)
    end.

(** Collaborators whose LLM finds nothing to say. *)
Definition quiet : collaborators nat :=
  fun c w =>
    match c with
    | fetch_pr_diff _ _ => (Returned "", S w)
    | chain _ _ _ => (Returned (ReviewResponse_new None), S w)
    | post_pr_review _ _ payload => (Returned "Review posted.", S w)
    end.

(** Collaborators that all fail. *)
Definition broken : collaborators nat :=
  fun c w =>
    match c return outcome (reply c) * nat with
    | fetch_pr_diff _ _ => (Raised (Exception "404 Not Found"), S w)
    | chain _ _ _ => (Raised (Exception "rate limit"), S w)
    | post_pr_review _ _ _ => (Raised (Exception "403 Forbidden"), S w)
    end.

(** The diff is served, the LLM fails. *)
Definition llm_down : collaborators nat :=
  fun c w =>
    match c return outcome (reply c) * nat with
    | fetch_pr_diff _ _ => (Returned diff_text, S w)
    | chain _ _ _ => (Raised (Exception "rate limit"), S w)
    | post_pr_review _ _ _ => (Raised (Exception "403 Forbidden"), S w)
    end.

Definition acme : ReviewState := new_state "acme/widgets" 42.

(** The suspended record of the scenario, approved. *)
Definition acme_approved : ReviewState :=
  {| repo_name := "acme/widgets"; pr_number := 42; pr_diff := Some diff_text;
     proposed_comments := [sqli_comment]; review_approved := true;
     messages := [] |}.

End Demo.

(** ** Truthiness and serialisation *)

Lemma opt_str_truthy_true (o : option string) :
  opt_str_truthy o = true <-> exists a s, o = Some (String a s).
Proof.
  split.
  - destruct o as [[|a s]|]; simpl; try discriminate. eauto.
  - intros (a & s & ->). reflexivity.
Qed.

Lemma opt_str_truthy_false (o : option string) :
  opt_str_truthy o = false <-> o = None \/ o = Some "".
Proof.
  destruct o as [[|a s]|]; simpl; split; intros H; auto;
    try discriminate; destruct H; discriminate.
Qed.

Lemma as_str_truthy (o : option string) :
  opt_str_truthy o = true -> o = Some (as_str o).
Proof. destruct o as [s|]; simpl; [reflexivity | discriminate]. Qed.

Lemma list_truthy_false {A : Type} (l : list A) :
  list_truthy l = false <-> l = [].
Proof. destruct l; simpl; split; congruence. Qed.

Lemma severity_value_inj (a b : Severity) :
  severity_value a = severity_value b -> a = b.
Proof. destruct a, b; simpl; intros H; try reflexivity; discriminate H. Qed.

(** The plain mapping keeps every field: a comment is recovered from it. *)
Lemma model_dump_inj (c1 c2 : PullRequestComment) :
  model_dump c1 = model_dump c2 -> c1 = c2.
Proof.
  destruct c1, c2. unfold model_dump. simpl. intros H.
  injection H as Hf Hl Hb Hs.
  apply severity_value_inj in Hs. congruence.
Qed.

Lemma payload_lookup (cs : list PullRequestComment) (i : nat) :
  map model_dump cs !! i = model_dump <$> cs !! i.
Proof. apply list_lookup_fmap. Qed.

(** ** The shape of the two node bodies *)

Lemma poster_node_rejected (state : ReviewState) :
  review_approved state = false ->
  poster_node state =
    Return {[ "messages" := VMessages [("ai", rejection_text)] ]}.
Proof. intros H. unfold poster_node. rewrite H. reflexivity. Qed.

Lemma poster_node_no_issues (state : ReviewState) :
  review_approved state = true -> proposed_comments state = [] ->
  poster_node state =
    Return {[ "messages" := VMessages [("ai", no_issues_text)] ]}.
Proof. intros H1 H2. unfold poster_node. rewrite H1, H2. reflexivity. Qed.

Lemma poster_node_posting (state : ReviewState) :
  review_approved state = true -> proposed_comments state <> [] ->
  poster_node state =
    Invoke (post_pr_review (repo_name state) (pr_number state)
              (map model_dump (proposed_comments state)))
      (fun result =>
         Return {[ "messages" :=
                     VMessages [("ai", success_marker +:+ result)] ]}).
Proof.
  intros H1 H2. unfold poster_node. rewrite H1.
  destruct (proposed_comments state); [congruence | reflexivity].
Qed.

Lemma reviewer_node_falsy (state : ReviewState) :
  opt_str_truthy (pr_diff state) = false ->
  reviewer_node state =
    Invoke (fetch_pr_diff (repo_name state) (pr_number state))
           (analysis state).
Proof. intros H. unfold reviewer_node. rewrite H. reflexivity. Qed.

Lemma reviewer_node_truthy (state : ReviewState) :
  opt_str_truthy (pr_diff state) = true ->
  reviewer_node state = analysis state (as_str (pr_diff state)).
Proof. intros H. unfold reviewer_node. rewrite H. reflexivity. Qed.

Lemma run_invoke {W A : Type} (answer : collaborators W) (c : call)
    (k : reply c -> node A) (w : W) :
  run answer (Invoke c k) w =
    match answer c w with
    | (Returned r, w') =>
        mkRan (out (run answer (k r) w')) (world (run answer (k r) w'))
              (c :: calls (run answer (k r) w'))
    | (Raised e, w') => mkRan (Raised e) w' [c]
    end.
Proof. reflexivity. Qed.

Lemma run_analysis {W : Type} (answer : collaborators W)
    (state : ReviewState) (d : string) (w : W) :
  run answer (analysis state d) w =
    match answer (chain prompt (repo_name state) d) w with
    | (Returned resp, w') =>
        mkRan (Returned {[ "pr_diff" := VText d;
                           "proposed_comments" := VComments (comments resp) ]})
              w' [chain prompt (repo_name state) d]
    | (Raised e, w') =>
        mkRan (Raised e) w' [chain prompt (repo_name state) d]
    end.
Proof.
  unfold analysis. simpl.
  destruct (answer _ w) as [[resp|e] w']; reflexivity.
Qed.

(** The keys of the Reviewer's dict. *)
Lemma reviewer_update_dom (d : string) (cs : list PullRequestComment) :
  dom ({[ "pr_diff" := VText d; "proposed_comments" := VComments cs ]}
         : update)
  = ({[ "pr_diff"; "proposed_comments" ]} : gset string).
Proof. rewrite dom_insert_L, dom_singleton_L. reflexivity. Qed.

(** The keys of the Poster's dict. *)
Lemma poster_update_dom (ms : list message) :
  dom ({[ "messages" := VMessages ms ]} : update)
  = ({[ "messages" ]} : gset string).
Proof. apply dom_singleton_L. Qed.

(** ** The Poster *)

(** C1: in every state whose [review_approved] is false, whatever its
    [proposed_comments], the Poster returns the dict whose [messages] holds
    the single rejection message, and the posting collaborator (like every
    other collaborator) is not invoked: the body is a bare return, and a run
    against any collaborators makes no invocation and leaves their world
    untouched. *)
Theorem poster_rejects_unapproved {W : Type} (answer : collaborators W)
    (state : ReviewState) (w : W) :
  review_approved state = false ->
  let r := run answer (poster_node state) w in
  out r = Returned {[ "messages" := VMessages [("ai", rejection_text)] ]}
  /\ calls r = []
  /\ count is_post (calls r) = 0
  /\ world r = w.
Proof.
  intros H r. subst r. rewrite (poster_node_rejected state H). simpl. auto.
Qed.

Lemma poster_rejects_unapproved_witness :
  let state :=
    {| repo_name := "acme/widgets"; pr_number := 42;
       pr_diff := Some Demo.diff_text;
       proposed_comments := [Demo.sqli_comment];
       review_approved := false; messages := [] |} in
  let r := run Demo.helpful (poster_node state) 0 in
  out r = Returned {[ "messages" := VMessages [("ai", rejection_text)] ]}
  /\ calls r = []
  /\ count is_post (calls r) = 0
  /\ world r = 0.
Proof.
  intros state.
  exact (poster_rejects_unapproved Demo.helpful state 0 eq_refl).
Defined.

(** C2: in every state whose [review_approved] is true and whose
    [proposed_comments] is empty, the Poster returns the dict whose
    [messages] holds the single "no issues" message, and no collaborator is
    invoked. *)
Theorem poster_skips_without_comments {W : Type} (answer : collaborators W)
    (state : ReviewState) (w : W) :
  review_approved state = true ->
  proposed_comments state = [] ->
  let r := run answer (poster_node state) w in
  out r = Returned {[ "messages" := VMessages [("ai", no_issues_text)] ]}
  /\ calls r = []
  /\ count is_post (calls r) = 0
  /\ world r = w.
Proof.
  intros H1 H2 r. subst r. rewrite (poster_node_no_issues state H1 H2).
  simpl. auto.
Qed.

Lemma poster_skips_without_comments_witness :
  let state :=
    {| repo_name := "acme/widgets"; pr_number := 42;
       pr_diff := Some Demo.diff_text; proposed_comments := [];
       review_approved := true; messages := [] |} in
  let r := run Demo.helpful (poster_node state) 0 in
  out r = Returned {[ "messages" := VMessages [("ai", no_issues_text)] ]}
  /\ calls r = []
  /\ count is_post (calls r) = 0
  /\ world r = 0.
Proof.
  intros state.
  exact (poster_skips_without_comments Demo.helpful state 0 eq_refl eq_refl).
Defined.

(** C3: in every state whose [review_approved] is true and whose
    [proposed_comments] is not empty, the Poster invokes the posting
    collaborator exactly once, with [repo_name], [pr_number] and a payload
    that holds, position by position, the plain mapping of every proposed
    comment; it makes no other invocation; and when the collaborator replies
    with a result string the Poster returns the dict whose [messages] holds
    the single message made of the success marker followed by that string
    (an exception of the collaborator leaves the Poster as it is). *)
Theorem poster_posts_once {W : Type} (answer : collaborators W)
    (state : ReviewState) (w : W) :
  review_approved state = true ->
  proposed_comments state <> [] ->
  let payload := map model_dump (proposed_comments state) in
  let c := post_pr_review (repo_name state) (pr_number state) payload in
  let r := run answer (poster_node state) w in
  calls r = [c]
  /\ count is_post (calls r) = 1
  /\ length payload = length (proposed_comments state)
  /\ (forall i, payload !! i = model_dump <$> proposed_comments state !! i)
  /\ world r = (answer c w).2
  /\ out r =
       match (answer c w).1 with
       | Returned result =>
           Returned {[ "messages" :=
                         VMessages [("ai", success_marker +:+ result)] ]}
       | Raised e => Raised e
       end.
Proof.
  intros H1 H2 payload c r. subst r.
  rewrite (poster_node_posting state H1 H2). fold payload. fold c. simpl.
  assert (Hlen : length payload = length (proposed_comments state))
    by apply length_map.
  assert (Hlook : forall i,
             payload !! i = model_dump <$> proposed_comments state !! i)
    by apply payload_lookup.
  destruct (answer c w) as [[result|e] w']; simpl; auto 10.
Qed.

Lemma poster_posts_once_witness :
  let state := Demo.acme_approved in
  let payload := map model_dump (proposed_comments state) in
  let c := post_pr_review (repo_name state) (pr_number state) payload in
  let r := run Demo.helpful (poster_node state) 0 in
  calls r = [c]
  /\ count is_post (calls r) = 1
  /\ length payload = length (proposed_comments state)
  /\ (forall i, payload !! i = model_dump <$> proposed_comments state !! i)
  /\ world r = (Demo.helpful c 0).2
  /\ out r =
       match (Demo.helpful c 0).1 with
       | Returned result =>
           Returned {[ "messages" :=
                         VMessages [("ai", success_marker +:+ result)] ]}
       | Raised e => Raised e
       end.
Proof.
  intros state.
  refine (poster_posts_once Demo.helpful state 0 eq_refl _).
  discriminate.
Defined.

(** The scenario of the spec: one critical comment, approved. *)
Example poster_scenario :
  out (run Demo.helpful (poster_node Demo.acme_approved) 0)
  = Returned {[ "messages" := VMessages [("ai", "🚀 Review posted.")] ]}.
Proof. reflexivity. Qed.

(** ** The Reviewer *)

(** The Diff Fetcher is invoked once when [pr_diff] is falsy and not at all
    when it is truthy, whatever the collaborators do afterwards. *)
Lemma reviewer_fetch_count {W : Type} (answer : collaborators W)
    (state : ReviewState) (w : W) :
  count is_fetch (calls (run answer (reviewer_node state) w))
  = if opt_str_truthy (pr_diff state) then 0 else 1.
Proof.
  destruct (opt_str_truthy (pr_diff state)) eqn:H.
  - rewrite (reviewer_node_truthy state H), run_analysis.
    destruct (answer _ w) as [[resp|e] w']; reflexivity.
  - rewrite (reviewer_node_falsy state H), run_invoke.
    destruct (answer _ w) as [[d|e] w']; [|reflexivity].
    rewrite run_analysis.
    destruct (answer _ w') as [[resp|e] w'']; reflexivity.
Qed.

(** The Reviewer never invokes the posting collaborator. *)
Lemma reviewer_never_posts {W : Type} (answer : collaborators W)
    (state : ReviewState) (w : W) :
  count is_post (calls (run answer (reviewer_node state) w)) = 0.
Proof.
  destruct (opt_str_truthy (pr_diff state)) eqn:H.
  - rewrite (reviewer_node_truthy state H), run_analysis.
    destruct (answer _ w) as [[resp|e] w']; reflexivity.
  - rewrite (reviewer_node_falsy state H), run_invoke.
    destruct (answer _ w) as [[d|e] w']; [|reflexivity].
    rewrite run_analysis.
    destruct (answer _ w') as [[resp|e] w'']; reflexivity.
Qed.

(** C4: for every state, the Reviewer takes the diff from the state when
    [pr_diff] is populated and from the Diff Fetcher, invoked once, when it
    is not (absent being Python's falsy: [None] or the empty text); it then
    invokes the reasoning collaborator once, with the fixed system
    instruction, the repository name and that diff; and, the collaborators
    having replied, it returns the dict with exactly the keys [pr_diff] (the
    diff) and [proposed_comments] (the comments of the reply).  A reply
    without issues, also for an empty diff, gives the empty list and a
    normal return.  Whatever the collaborators do, the number of fetches is
    1 when [pr_diff] is falsy and 0 when it is truthy. *)
Theorem reviewer_node_contract {W : Type} (answer : collaborators W)
    (state : ReviewState) (w w1 w2 : W) (d : string) (resp : ReviewResponse) :
  (if opt_str_truthy (pr_diff state)
   then pr_diff state = Some d /\ w1 = w
   else answer (fetch_pr_diff (repo_name state) (pr_number state)) w
        = (Returned d, w1)) ->
  answer (chain prompt (repo_name state) d) w1 = (Returned resp, w2) ->
  let r := run answer (reviewer_node state) w in
  let u : update := {[ "pr_diff" := VText d;
                       "proposed_comments" := VComments (comments resp) ]} in
  out r = Returned u
  /\ world r = w2
  /\ calls r =
       (if opt_str_truthy (pr_diff state) then []
        else [fetch_pr_diff (repo_name state) (pr_number state)])
       ++ [chain prompt (repo_name state) d]
  /\ count is_fetch (calls r)
     = (if opt_str_truthy (pr_diff state) then 0 else 1)
  /\ count is_chain (calls r) = 1
  /\ dom u = {[ "pr_diff"; "proposed_comments" ]}
  /\ pr_diff (apply_update u state) = Some d
  /\ proposed_comments (apply_update u state) = comments resp
  /\ (resp = ReviewResponse_new None ->
      u !! "proposed_comments" = Some (VComments []))
  /\ (forall (others : collaborators W) (w' : W),
        count is_fetch (calls (run others (reviewer_node state) w'))
        = if opt_str_truthy (pr_diff state) then 0 else 1).
Proof.
  intros Hdiff Hchain r u.
  assert (Hrun : r = mkRan (Returned u) w2
                   ((if opt_str_truthy (pr_diff state) then []
                     else [fetch_pr_diff (repo_name state) (pr_number state)])
                    ++ [chain prompt (repo_name state) d])).
  { subst r. destruct (opt_str_truthy (pr_diff state)) eqn:H.
    - destruct Hdiff as [Hd ->].
      rewrite (reviewer_node_truthy state H), Hd. simpl as_str.
      rewrite run_analysis, Hchain. reflexivity.
    - rewrite (reviewer_node_falsy state H), run_invoke, Hdiff.
      rewrite run_analysis, Hchain. reflexivity. }
  rewrite Hrun. cbn [out world calls].
  split; [reflexivity|]. split; [reflexivity|]. split; [reflexivity|].
  split; [destruct (opt_str_truthy (pr_diff state)); reflexivity|].
  split; [destruct (opt_str_truthy (pr_diff state)); reflexivity|].
  split; [apply reviewer_update_dom|].
  split; [reflexivity|]. split; [reflexivity|].
  split; [intros ->; reflexivity|].
  intros others w'. apply reviewer_fetch_count.
Qed.

Lemma reviewer_node_contract_witness :
  let r := run Demo.quiet (reviewer_node Demo.acme) 0 in
  let u : update := {[ "pr_diff" := VText "";
                       "proposed_comments" := VComments [] ]} in
  out r = Returned u
  /\ world r = 2
  /\ calls r = [fetch_pr_diff "acme/widgets" 42;
                chain prompt "acme/widgets" ""]
  /\ dom u = {[ "pr_diff"; "proposed_comments" ]}
  /\ proposed_comments (apply_update u Demo.acme) = [].
Proof.
  intros r u.
  pose proof (reviewer_node_contract Demo.quiet Demo.acme 0 1 2 ""
                (ReviewResponse_new None) eq_refl eq_refl) as H.
  simpl in H.
  destruct H as (H1 & H2 & H3 & _ & _ & H6 & _ & H8 & _ & _).
  repeat split; assumption.
Defined.

(** A state that already carries its diff: the fetcher is left alone. *)
Example reviewer_keeps_diff :
  calls (run Demo.helpful (reviewer_node Demo.acme_approved) 0)
  = [chain prompt "acme/widgets" Demo.diff_text].
Proof. reflexivity. Qed.

(** C10: a state whose [pr_diff] is the empty string is handled as one
    without a diff: the Reviewer's first invocation is the Diff Fetcher,
    invoked once, and its body is the very body it has for the same state
    with [pr_diff] absent.  The decision is the truthiness of [pr_diff]: in
    every state the number of fetches is 0 when it is truthy and 1 when it
    is not. *)
Theorem reviewer_empty_diff_is_absent {W : Type} (answer : collaborators W)
    (state : ReviewState) (w : W) :
  pr_diff state = Some "" ->
  let r := run answer (reviewer_node state) w in
  head (calls r) = Some (fetch_pr_diff (repo_name state) (pr_number state))
  /\ count is_fetch (calls r) = 1
  /\ reviewer_node state = reviewer_node (with_pr_diff None state)
  /\ (forall (s : ReviewState) (w' : W),
        count is_fetch (calls (run answer (reviewer_node s) w'))
        = if opt_str_truthy (pr_diff s) then 0 else 1).
Proof.
  intros H r.
  assert (Hf : opt_str_truthy (pr_diff state) = false) by (rewrite H; reflexivity).
  repeat split.
  - subst r. rewrite (reviewer_node_falsy state Hf), run_invoke.
    destruct (answer _ w) as [[d|e] w']; reflexivity.
  - subst r. rewrite reviewer_fetch_count, Hf. reflexivity.
  - rewrite (reviewer_node_falsy state Hf).
    rewrite (reviewer_node_falsy (with_pr_diff None state) eq_refl).
    reflexivity.
  - intros s w'. apply reviewer_fetch_count.
Qed.

Lemma reviewer_empty_diff_is_absent_witness :
  let state := with_pr_diff (Some "") Demo.acme in
  let r := run Demo.helpful (reviewer_node state) 0 in
  head (calls r) = Some (fetch_pr_diff "acme/widgets" 42)
  /\ count is_fetch (calls r) = 1
  /\ reviewer_node state = reviewer_node (with_pr_diff None state).
Proof.
  intros state r.
  pose proof (reviewer_empty_diff_is_absent Demo.helpful state 0 eq_refl)
    as (H1 & H2 & H3 & _).
  repeat split; assumption.
Defined.

(** ** The engine on the compiled graph *)

Lemma builder_reviewer : nodes builder !! "reviewer" = Some reviewer_node.
Proof. reflexivity. Qed.

Lemma builder_poster : nodes builder !! "poster" = Some poster_node.
Proof. reflexivity. Qed.

Lemma builder_edges :
  edges builder
  = [(START, "reviewer"); ("reviewer", "poster"); ("poster", END)].
Proof. reflexivity. Qed.

Lemma successors_START : successors builder START = ["reviewer"].
Proof. reflexivity. Qed.

Lemma successors_reviewer : successors builder "reviewer" = ["poster"].
Proof. reflexivity. Qed.

Lemma successors_poster : successors builder "poster" = [].
Proof. reflexivity. Qed.

Lemma run_tasks_one {W : Type} (answer : collaborators W) (g : StateGraph)
    (name : string) (fn : ReviewState -> node update) (s : ReviewState)
    (w : W) :
  nodes g !! name = Some fn ->
  run_tasks answer g [name] s w =
    let r := run answer (fn s) w in
    match out r with
    | Raised e => (Raised e, world r, Entered name :: map Called (calls r))
    | Returned u =>
        (Returned [u], world r, Entered name :: map Called (calls r))
    end.
Proof.
  intros H. cbn [run_tasks]. rewrite H. cbn zeta.
  destruct (out (run answer (fn s) w)); [|reflexivity].
  rewrite app_nil_r. reflexivity.
Qed.

(** One round of the loop on a single due node that is not paused at. *)
Lemma pregel_loop_round {W : Type} (answer : collaborators W)
    (g : CompiledGraph) (limit : nat) (resuming : bool) (s : ReviewState)
    (name : string) (fn : ReviewState -> node update) (w : W) :
  nodes (built g) !! name = Some fn ->
  (if resuming then None else breakpoint g [name]) = None ->
  pregel_loop answer g (S limit) resuming {| values := s; next := [name] |} w
  = let r := run answer (fn s) w in
    match out r with
    | Raised e =>
        (Failed e, {| values := s; next := [name] |}, world r,
         Entered name :: map Called (calls r))
    | Returned u =>
        match pregel_loop answer g limit false
                {| values := apply_update u s;
                   next := remove_dups (successors (built g) name) |}
                (world r) with
        | (st, cp, w', evs) =>
            (st, cp, w', (Entered name :: map Called (calls r)) ++ evs)
        end
    end.
Proof.
  intros Hfn Hbp. cbn [pregel_loop next values]. rewrite Hbp.
  rewrite (run_tasks_one answer (built g) name fn s w Hfn). cbn zeta.
  destruct (out (run answer (fn s) w)) as [u|e]; [|reflexivity].
  cbn [foldl map concat]. rewrite app_nil_r. reflexivity.
Qed.

Lemma pregel_loop_finished {W : Type} (answer : collaborators W)
    (g : CompiledGraph) (limit : nat) (resuming : bool) (s : ReviewState)
    (w : W) :
  pregel_loop answer g limit resuming {| values := s; next := [] |} w
  = (Finished, {| values := s; next := [] |}, w, [Ended]).
Proof. destruct limit; reflexivity. Qed.

Lemma pregel_loop_paused {W : Type} (answer : collaborators W)
    (limit : nat) (s : ReviewState) (w : W) :
  pregel_loop answer graph limit false {| values := s; next := ["poster"] |} w
  = (Interrupted, {| values := s; next := ["poster"] |}, w,
     [Paused "poster"]).
Proof. destruct limit; reflexivity. Qed.

(** A new run: the Reviewer runs, and the run pauses before the Poster. *)
Lemma graph_invoke_unfold {W : Type} (answer : collaborators W)
    (input : ReviewState) (thread : string) (db : store) (w : W) :
  graph_invoke answer graph input thread db w
  = let r := run answer (reviewer_node input) w in
    match out r with
    | Raised e =>
        (Failed e, <[thread := {| values := input; next := ["reviewer"] |}]> db,
         world r, Entered "reviewer" :: map Called (calls r))
    | Returned u =>
        (Interrupted,
         <[thread := {| values := apply_update u input;
                        next := ["poster"] |}]> db,
         world r,
         Entered "reviewer" :: map Called (calls r) ++ [Paused "poster"])
    end.
Proof.
  unfold graph_invoke, recursion_limit.
  change (successors (built graph) START) with ["reviewer"].
  rewrite (pregel_loop_round answer graph _ false input "reviewer"
             reviewer_node w builder_reviewer eq_refl).
  cbn zeta. destruct (out (run answer (reviewer_node input) w)) as [u|e];
    [|reflexivity].
  change (remove_dups (successors (built graph) "reviewer"))
    with ["poster"].
  rewrite pregel_loop_paused. reflexivity.
Qed.

(** A resume of a suspended run: the Poster runs, and the run ends. *)
Lemma graph_resume_unfold {W : Type} (answer : collaborators W)
    (thread : string) (db : store) (s : ReviewState) (w : W) :
  db !! thread = Some {| values := s; next := ["poster"] |} ->
  graph_resume answer graph thread db w
  = let r := run answer (poster_node s) w in
    match out r with
    | Raised e =>
        (Failed e, <[thread := {| values := s; next := ["poster"] |}]> db,
         world r, Entered "poster" :: map Called (calls r))
    | Returned u =>
        (Finished,
         <[thread := {| values := apply_update u s; next := [] |}]> db,
         world r,
         Entered "poster" :: map Called (calls r) ++ [Ended])
    end.
Proof.
  intros Hdb. unfold graph_resume, recursion_limit. rewrite Hdb.
  rewrite (pregel_loop_round answer graph _ true s "poster"
             poster_node w builder_poster eq_refl).
  cbn zeta. destruct (out (run answer (poster_node s) w)) as [u|e];
    [|reflexivity].
  change (remove_dups (successors (built graph) "poster")) with (@nil string).
  rewrite pregel_loop_finished. reflexivity.
Qed.

(** A resume of a run that has ended does nothing. *)
Lemma graph_resume_finished {W : Type} (answer : collaborators W)
    (thread : string) (db : store) (s : ReviewState) (w : W) :
  db !! thread = Some {| values := s; next := [] |} ->
  graph_resume answer graph thread db w
  = (Finished, <[thread := {| values := s; next := [] |}]> db, w, [Ended]).
Proof.
  intros Hdb. unfold graph_resume. rewrite Hdb, pregel_loop_finished.
  reflexivity.
Qed.

Lemma approve_lookup (thread : string) (decision : bool) (db : store)
    (cp : Checkpoint) :
  db !! thread = Some cp ->
  approve thread decision db !! thread
  = Some {| values :=
              {| repo_name := repo_name (values cp);
                 pr_number := pr_number (values cp);
                 pr_diff := pr_diff (values cp);
                 proposed_comments := proposed_comments (values cp);
                 review_approved := decision;
                 messages := messages (values cp) |};
            next := next cp |}.
Proof.
  intros H. unfold approve, update_state.
  rewrite lookup_alter_eq, H. reflexivity.
Qed.

(** A whole run, spelled out. *)
Lemma review_run_unfold {W : Type} (answer : collaborators W)
    (input : ReviewState) (thread : string) (decision : option bool)
    (db : store) (w : W) :
  review_run answer input thread decision db w
  = let r := run answer (reviewer_node input) w in
    match out r with
    | Raised e =>
        (Failed e, <[thread := {| values := input; next := ["reviewer"] |}]> db,
         world r, Entered "reviewer" :: map Called (calls r))
    | Returned u =>
        let s := decided decision (apply_update u input) in
        let db1 := external_write thread decision
                     (<[thread := {| values := apply_update u input;
                                     next := ["poster"] |}]> db) in
        let r' := run answer (poster_node s) (world r) in
        let evs := Entered "reviewer" :: map Called (calls r)
                   ++ [Paused "poster"]
                   ++ Entered "poster" :: map Called (calls r') in
        match out r' with
        | Raised e =>
            (Failed e, <[thread := {| values := s; next := ["poster"] |}]> db1,
             world r', evs)
        | Returned u' =>
            (Finished,
             <[thread := {| values := apply_update u' s; next := [] |}]> db1,
             world r', evs ++ [Ended])
        end
    end.
Proof.
  unfold review_run. rewrite graph_invoke_unfold. cbn zeta.
  destruct (out (run answer (reviewer_node input) w)) as [u|e];
    [|reflexivity].
  set (cp := {| values := apply_update u input; next := ["poster"] |}).
  set (s := decided decision (apply_update u input)).
  assert (Hdb : external_write thread decision (<[thread := cp]> db) !! thread
                = Some {| values := s; next := ["poster"] |}).
  { destruct decision as [b|]; simpl.
    - rewrite (approve_lookup thread b _ cp) by apply lookup_insert_eq.
      reflexivity.
    - apply lookup_insert_eq. }
  rewrite (graph_resume_unfold answer thread _ s _ Hdb). cbn zeta.
  destruct (out (run answer (poster_node s) (world _))) as [u'|e].
  - f_equal. simpl. rewrite <- !app_assoc. reflexivity.
  - f_equal. simpl. rewrite <- !app_assoc. reflexivity.
Qed.

(** ** Reading the engine's events *)

Lemma path_app (evs1 evs2 : list event) :
  path (evs1 ++ evs2) = path evs1 ++ path evs2.
Proof.
  induction evs1 as [|ev evs1 IH]; [reflexivity|].
  destruct ev as [name|c|name|]; simpl; rewrite IH; try reflexivity.
  destruct (String.eqb name "reviewer"); [reflexivity|].
  destruct (String.eqb name "poster"); reflexivity.
Qed.

Lemma path_Called (log : list call) : path (map Called log) = [].
Proof. induction log as [|c log IH]; [reflexivity | exact IH]. Qed.

Lemma entered_app (evs1 evs2 : list event) :
  entered (evs1 ++ evs2) = entered evs1 ++ entered evs2.
Proof.
  induction evs1 as [|ev evs1 IH]; [reflexivity|].
  destruct ev; simpl; rewrite IH; reflexivity.
Qed.

Lemma entered_Called (log : list call) : entered (map Called log) = [].
Proof. induction log as [|c log IH]; [reflexivity | exact IH]. Qed.

Lemma called_app (evs1 evs2 : list event) :
  called (evs1 ++ evs2) = called evs1 ++ called evs2.
Proof.
  induction evs1 as [|ev evs1 IH]; [reflexivity|].
  destruct ev; simpl; rewrite IH; reflexivity.
Qed.

Lemma called_Called (log : list call) : called (map Called log) = log.
Proof. induction log as [|c log IH]; [reflexivity | simpl; congruence]. Qed.

#[local] Ltac read_events :=
  repeat (progress
    (cbn [path entered called String.eqb Ascii.eqb Bool.eqb app];
     repeat first
       [ rewrite path_app | rewrite entered_app | rewrite called_app
       | rewrite path_Called | rewrite entered_Called
       | rewrite called_Called | rewrite app_nil_r ])).

(** ** The Workflow Runner *)

(** C5: every run follows the one path start, reviewing, awaiting-approval,
    posting, done.  The call that starts a run enters the Reviewer and no
    other node; once the Reviewer has returned, the run is suspended before
    the Poster, with the Poster as the only node due, whatever the state;
    the Poster is entered in the resume and not before; the states a whole
    run passes through are a prefix of that path (a collaborator's exception
    ends the run where it stands) and the whole path exactly when the run
    finishes; a whole run ends finished or failed, never paused a second
    time nor out of steps; and resuming a finished run enters no node and
    does not pause again. *)
Theorem workflow_is_linear {W : Type} (answer : collaborators W)
    (input : ReviewState) (thread : string) (decision : option bool)
    (db : store) (w : W) :
  let first := graph_invoke answer graph input thread db w in
  let whole := review_run answer input thread decision db w in
  let again :=
    graph_resume answer graph thread (store_of whole) (world_of whole) in
  entered (events_of first) = ["reviewer"]
  /\ (forall u, out (run answer (reviewer_node input) w) = Returned u ->
        status_of first = Interrupted
        /\ path (events_of first) = [reviewing; awaiting_approval]
        /\ store_of first !! thread
           = Some {| values := apply_update u input; next := ["poster"] |})
  /\ (forall e, out (run answer (reviewer_node input) w) = Raised e ->
        status_of first = Failed e /\ path (events_of first) = [reviewing])
  /\ entered (events_of whole) `prefix_of` ["reviewer"; "poster"]
  /\ path (events_of whole)
       `prefix_of` [reviewing; awaiting_approval; posting; done]
  /\ (status_of whole = Finished <->
      path (events_of whole) = [reviewing; awaiting_approval; posting; done])
  /\ (status_of whole = Finished \/ exists e, status_of whole = Failed e)
  /\ (status_of whole = Finished ->
      status_of again = Finished
      /\ entered (events_of again) = []
      /\ path (events_of again) = [done]).
Proof.
  intros first whole again.
  assert (Hfirst := graph_invoke_unfold answer input thread db w).
  assert (Hwhole := review_run_unfold answer input thread decision db w).
  fold first in Hfirst. fold whole in Hwhole. cbn zeta in Hfirst, Hwhole.
  destruct (out (run answer (reviewer_node input) w)) as [u|e] eqn:Hrev.
  - (* the Reviewer returned *)
    split; [rewrite Hfirst; unfold events_of; simpl snd; read_events;
            reflexivity|].
    split.
    { intros u' [= <-]. rewrite Hfirst.
      unfold status_of, events_of, store_of. simpl.
      split; [reflexivity|]. split; [read_events; reflexivity|].
      apply lookup_insert_eq. }
    split; [intros e [=]|].
    match type of Hwhole with
    | context [run answer (poster_node ?s) ?w1] =>
        destruct (out (run answer (poster_node s) w1)) as [u'|e] eqn:Hpost
    end.
    + (* the Poster returned *)
      assert (Hagain : again
                = (Finished, store_of whole, world_of whole, [Ended])).
      { subst again. rewrite Hwhole. unfold store_of, world_of. simpl.
        erewrite graph_resume_finished by apply lookup_insert_eq.
        f_equal. f_equal. f_equal. apply insert_insert_eq. }
      rewrite Hagain, Hwhole. unfold status_of, events_of. simpl.
      read_events.
      split; [reflexivity|]. split; [reflexivity|].
      split; [split; reflexivity|]. split; [left; reflexivity|].
      intros _. repeat split.
    + (* the Poster raised *)
      rewrite Hwhole. unfold status_of, events_of. simpl. read_events.
      split; [reflexivity|].
      split; [exists [done]; reflexivity|].
      split; [split; discriminate|].
      split; [right; eexists; reflexivity | discriminate].
  - (* the Reviewer raised *)
    rewrite Hfirst, Hwhole. unfold status_of, events_of. simpl. read_events.
    split; [reflexivity|].
    split; [intros u [=]|].
    split; [intros e' [= <-]; split; reflexivity|].
    split; [exists ["poster"]; reflexivity|].
    split; [exists [awaiting_approval; posting; done]; reflexivity|].
    split; [split; discriminate|].
    split; [right; eexists; reflexivity | discriminate].
Qed.

(** The scenario of the spec, end to end. *)
Example scenario_path :
  path (events_of (review_run Demo.helpful Demo.acme "pr-42" (Some true) ∅ 0))
  = [reviewing; awaiting_approval; posting; done].
Proof. vm_compute. reflexivity. Qed.

(** ** What the nodes write *)

Lemma returns_all_run {W A : Type} (P : A -> Prop) (p : node A) :
  returns_all P p ->
  forall (answer : collaborators W) (w : W) (a : A),
    out (run answer p w) = Returned a -> P a.
Proof.
  induction p as [a0|c k IH]; intros HP answer w a.
  - simpl. intros [= <-]. exact HP.
  - rewrite run_invoke. destruct (answer c w) as [[r|e] w'].
    + cbn [out]. apply IH, HP.
    + discriminate.
Qed.

Lemma returns_all_impl {A : Type} (P Q : A -> Prop) (p : node A) :
  (forall a, P a -> Q a) -> returns_all P p -> returns_all Q p.
Proof.
  intros HPQ. induction p as [a|c k IH]; simpl; [apply HPQ|].
  intros H r. apply IH, H.
Qed.

(** Every dict of the Poster has the one key [messages]. *)
Lemma poster_returns_messages (state : ReviewState) :
  returns_all (fun u : update => dom u = ({[ "messages" ]} : gset string))
              (poster_node state).
Proof.
  destruct (review_approved state) eqn:H1.
  - destruct (proposed_comments state) as [|c cs] eqn:H2.
    + rewrite (poster_node_no_issues state H1 H2). apply poster_update_dom.
    + rewrite (poster_node_posting state H1) by congruence.
      intros result. apply poster_update_dom.
  - rewrite (poster_node_rejected state H1). apply poster_update_dom.
Qed.

(** Every dict of the Reviewer has the two keys [pr_diff] and
    [proposed_comments]. *)
Lemma reviewer_returns_keys (state : ReviewState) :
  returns_all
    (fun u : update =>
       dom u = ({[ "pr_diff"; "proposed_comments" ]} : gset string))
    (reviewer_node state).
Proof.
  destruct (opt_str_truthy (pr_diff state)) eqn:H.
  - rewrite (reviewer_node_truthy state H).
    intros resp. apply reviewer_update_dom.
  - rewrite (reviewer_node_falsy state H).
    intros d resp. apply reviewer_update_dom.
Qed.

Lemma lookup_outside_dom (u : update) (keys : gset string) (k : string) :
  dom u = keys -> k ∉ keys -> u !! k = None.
Proof. intros <- H. apply not_elem_of_dom, H. Qed.

Lemma messages_only_lookup (u : update) (k : string) :
  dom u = ({[ "messages" ]} : gset string) -> k <> "messages" ->
  u !! k = None.
Proof.
  intros Hdom Hk. apply (lookup_outside_dom u _ k Hdom).
  intros H%elem_of_singleton. contradiction.
Qed.

Lemma reviewer_keys_lookup (u : update) (k : string) :
  dom u = ({[ "pr_diff"; "proposed_comments" ]} : gset string) ->
  k <> "pr_diff" -> k <> "proposed_comments" ->
  u !! k = None.
Proof.
  intros Hdom Hk1 Hk2. apply (lookup_outside_dom u _ k Hdom).
  intros [H%elem_of_singleton|H%elem_of_singleton]%elem_of_union;
    contradiction.
Qed.

(** A dict with the one key [messages] leaves every other field alone. *)
Lemma apply_update_messages_only (u : update) (s : ReviewState) :
  dom u = ({[ "messages" ]} : gset string) ->
  repo_name (apply_update u s) = repo_name s
  /\ pr_number (apply_update u s) = pr_number s
  /\ pr_diff (apply_update u s) = pr_diff s
  /\ proposed_comments (apply_update u s) = proposed_comments s
  /\ review_approved (apply_update u s) = review_approved s.
Proof.
  intros Hdom. unfold apply_update. cbn.
  rewrite !(lookup_outside_dom u {[ "messages" ]}); auto;
    intros H%elem_of_singleton; discriminate.
Qed.

(** A dict of the Reviewer leaves [review_approved], the repository and the
    change-request number alone. *)
Lemma apply_update_reviewer_keys (u : update) (s : ReviewState) :
  dom u = ({[ "pr_diff"; "proposed_comments" ]} : gset string) ->
  repo_name (apply_update u s) = repo_name s
  /\ pr_number (apply_update u s) = pr_number s
  /\ review_approved (apply_update u s) = review_approved s.
Proof.
  intros Hdom. unfold apply_update. cbn.
  rewrite !(lookup_outside_dom u {[ "pr_diff"; "proposed_comments" ]}); auto;
    intros [H|H%elem_of_singleton]%elem_of_union;
    try (apply elem_of_singleton in H); discriminate.
Qed.

(** The Poster invokes nothing but the posting collaborator. *)
Lemma poster_calls {W : Type} (answer : collaborators W)
    (state : ReviewState) (w : W) :
  calls (run answer (poster_node state) w) = []
  \/ calls (run answer (poster_node state) w)
     = [post_pr_review (repo_name state) (pr_number state)
          (map model_dump (proposed_comments state))].
Proof.
  destruct (review_approved state) eqn:H1.
  - destruct (proposed_comments state) as [|c cs] eqn:H2.
    + rewrite (poster_node_no_issues state H1 H2). left. reflexivity.
    + rewrite (poster_node_posting state H1) by congruence.
      rewrite H2, run_invoke. right.
      destruct (answer _ w) as [[result|e] w']; reflexivity.
  - rewrite (poster_node_rejected state H1). left. reflexivity.
Qed.

(** C6: a run persisted at the Approval Gate and resumed after the external
    approval decision continues at the Poster: the resume enters the Poster
    and no other node, the Diff Fetcher and the reasoning collaborator are
    not invoked, and the record saved afterwards holds the [pr_diff] and the
    [proposed_comments] it held at suspension (and the same repository and
    change-request number, and the decision), whether the Poster returned or
    raised.  In every state, every dict the Poster can return has the one
    key [messages]. *)
Theorem resume_continues_at_poster {W : Type} (answer : collaborators W)
    (thread : string) (db : store) (s : ReviewState) (decision : bool)
    (w : W) :
  db !! thread = Some {| values := s; next := ["poster"] |} ->
  let r := graph_resume answer graph thread (approve thread decision db) w in
  entered (events_of r) = ["poster"]
  /\ count is_fetch (called (events_of r)) = 0
  /\ count is_chain (called (events_of r)) = 0
  /\ (exists cp, store_of r !! thread = Some cp
        /\ pr_diff (values cp) = pr_diff s
        /\ proposed_comments (values cp) = proposed_comments s
        /\ repo_name (values cp) = repo_name s
        /\ pr_number (values cp) = pr_number s
        /\ review_approved (values cp) = decision)
  /\ (forall state : ReviewState,
        returns_all (fun u : update => dom u = {[ "messages" ]})
                    (poster_node state)).
Proof.
  intros Hdb r.
  pose proof (approve_lookup thread decision db _ Hdb) as Hgate.
  cbn [values next] in Hgate.
  pose proof (graph_resume_unfold answer thread _ _ w Hgate) as Hr.
  fold r in Hr. cbn zeta in Hr.
  match type of Hr with
  | context [run answer (poster_node ?s1) w] => set (s' := s1) in *
  end.
  pose proof (poster_calls answer s' w) as Hcalls.
  pose proof (returns_all_run _ _ (poster_returns_messages s') answer w)
    as Hdom.
  destruct (out (run answer (poster_node s') w)) as [u|e] eqn:Hout;
    rewrite Hr; unfold events_of, store_of; cbn [fst snd]; read_events.
  - split; [reflexivity|].
    split; [destruct Hcalls as [-> | ->]; reflexivity|].
    split; [destruct Hcalls as [-> | ->]; reflexivity|].
    split; [|exact poster_returns_messages].
    eexists. split; [apply lookup_insert_eq|]. cbn [values].
    destruct (apply_update_messages_only u s' (Hdom u eq_refl))
      as (H1 & H2 & H3 & H4 & H5).
    rewrite H1, H2, H3, H4, H5. repeat split.
  - split; [reflexivity|].
    split; [destruct Hcalls as [-> | ->]; reflexivity|].
    split; [destruct Hcalls as [-> | ->]; reflexivity|].
    split; [|exact poster_returns_messages].
    eexists. split; [apply lookup_insert_eq|]. repeat split.
Qed.

Lemma resume_continues_at_poster_witness :
  let db : store :=
    {[ "pr-42" := {| values := with_pr_diff (Some Demo.diff_text)
                                 Demo.acme_approved;
                     next := ["poster"] |} ]} in
  let r := graph_resume Demo.helpful graph "pr-42" (approve "pr-42" true db) 2
  in
  entered (events_of r) = ["poster"]
  /\ count is_fetch (called (events_of r)) = 0
  /\ count is_chain (called (events_of r)) = 0.
Proof.
  intros db r.
  pose proof (resume_continues_at_poster Demo.helpful "pr-42" db _ true 2
                (lookup_singleton_eq _ _)) as (H1 & H2 & H3 & _).
  repeat split; assumption.
Defined.

(** ** Fields no step writes *)

(** C7: [review_approved] is false in the record a run is created with, and
    no step writes it: in every state, no dict the Reviewer can return and
    no dict the Poster can return has the key [review_approved].  So the
    record saved by the call that starts a run carries the flag the input
    had, and the record saved at the end of a whole run carries the decision
    the external actor recorded while the run was suspended, or the flag of
    the input when the actor recorded none. *)
Theorem review_approved_only_set_externally {W : Type}
    (answer : collaborators W) (repo : string) (pr : Z)
    (input : ReviewState) (thread : string) (decision : option bool)
    (db : store) (w : W) :
  review_approved (new_state repo pr) = false
  /\ (forall state : ReviewState,
        returns_all (fun u : update => u !! "review_approved" = None)
                    (reviewer_node state))
  /\ (forall state : ReviewState,
        returns_all (fun u : update => u !! "review_approved" = None)
                    (poster_node state))
  /\ (exists cp,
        store_of (graph_invoke answer graph input thread db w) !! thread
        = Some cp
        /\ review_approved (values cp) = review_approved input)
  /\ (status_of (graph_invoke answer graph input thread db w) = Interrupted ->
      exists cp,
        store_of (review_run answer input thread decision db w) !! thread
        = Some cp
        /\ review_approved (values cp)
           = default (review_approved input) decision).
Proof.
  split; [reflexivity|].
  split.
  { intros state.
    apply (returns_all_impl
             (fun u : update => dom u = {[ "pr_diff"; "proposed_comments" ]}));
      [|apply reviewer_returns_keys].
    intros u H. apply (reviewer_keys_lookup u _ H); discriminate. }
  split.
  { intros state.
    apply (returns_all_impl (fun u : update => dom u = {[ "messages" ]}));
      [|apply poster_returns_messages].
    intros u H. apply (messages_only_lookup u _ H); discriminate. }
  rewrite graph_invoke_unfold, review_run_unfold. cbn zeta.
  pose proof (returns_all_run _ _ (reviewer_returns_keys input) answer w)
    as Hrev.
  destruct (out (run answer (reviewer_node input) w)) as [u|e] eqn:Hout.
  - destruct (apply_update_reviewer_keys u input (Hrev u eq_refl))
      as (_ & _ & Hflag).
    split.
    { eexists. unfold store_of. cbn [fst snd].
      split; [apply lookup_insert_eq | exact Hflag]. }
    intros _.
    match goal with
    | |- context [run answer (poster_node ?s1) ?w1] =>
        set (s' := s1); set (w' := w1)
    end.
    pose proof (returns_all_run _ _ (poster_returns_messages s') answer w')
      as Hpost.
    destruct (out (run answer (poster_node s') w')) as [u'|e] eqn:Hout';
      eexists; unfold store_of; cbn [fst snd];
      (split; [apply lookup_insert_eq|]); cbn [values].
    + destruct (apply_update_messages_only u' s' (Hpost u' eq_refl))
        as (_ & _ & _ & _ & ->).
      subst s'. destruct decision; [reflexivity | exact Hflag].
    + subst s'. destruct decision; [reflexivity | exact Hflag].
  - split.
    { eexists. unfold store_of. cbn [fst snd].
      split; [apply lookup_insert_eq | reflexivity]. }
    unfold status_of. cbn [fst]. discriminate.
Qed.

Lemma review_approved_only_set_externally_witness :
  status_of (graph_invoke Demo.helpful graph Demo.acme "pr-42" ∅ 0)
  = Interrupted
  /\ exists cp,
       store_of (review_run Demo.helpful Demo.acme "pr-42" (Some true) ∅ 0) !! "pr-42"
       = Some cp
       /\ review_approved (values cp) = true.
Proof.
  split; [vm_compute; reflexivity|].
  refine (proj2 (proj2 (proj2 (proj2
            (review_approved_only_set_externally Demo.helpful "acme/widgets"
               42 Demo.acme "pr-42" (Some true) ∅ 0)))) _).
  vm_compute. reflexivity.
Defined.

(** C8: [pr_diff] is empty in the record a run is created with, the call
    that starts the run leaves the suspended record with the diff the
    Reviewer settled on, and nothing replaces it for the remainder of the
    run: the record saved at the end of the whole run holds the same diff,
    whatever the approval decision and whether the Poster returned or
    raised.  No dict the Poster can return has the key [pr_diff], and a
    Reviewer that finds a populated [pr_diff] writes that same text back. *)
Theorem pr_diff_fixed_once_fetched {W : Type} (answer : collaborators W)
    (repo : string) (pr : Z) (input : ReviewState) (thread : string)
    (decision : option bool) (db : store) (w : W) :
  pr_diff (new_state repo pr) = None
  /\ (status_of (graph_invoke answer graph input thread db w) = Interrupted ->
      exists d cp1 cp2,
        store_of (graph_invoke answer graph input thread db w) !! thread
        = Some cp1
        /\ pr_diff (values cp1) = Some d
        /\ store_of (review_run answer input thread decision db w) !! thread
           = Some cp2
        /\ pr_diff (values cp2) = Some d)
  /\ (forall state : ReviewState,
        returns_all (fun u : update => u !! "pr_diff" = None)
                    (poster_node state))
  /\ (forall state : ReviewState,
        opt_str_truthy (pr_diff state) = true ->
        returns_all
          (fun u : update => pr_diff (apply_update u state) = pr_diff state)
          (reviewer_node state)).
Proof.
  split; [reflexivity|].
  split.
  { rewrite graph_invoke_unfold, review_run_unfold. cbn zeta.
    assert (Hrev : returns_all
                     (fun u : update => exists d,
                          pr_diff (apply_update u input) = Some d)
                     (reviewer_node input)).
    { destruct (opt_str_truthy (pr_diff input)) eqn:H.
      - rewrite (reviewer_node_truthy input H). intros resp. eexists.
        reflexivity.
      - rewrite (reviewer_node_falsy input H). intros d resp. exists d.
        reflexivity. }
    pose proof (returns_all_run _ _ Hrev answer w) as Hd.
    destruct (out (run answer (reviewer_node input) w)) as [u|e] eqn:Hout;
      [|unfold status_of; cbn [fst]; discriminate].
    intros _. destruct (Hd u eq_refl) as [d Hdiff].
    match goal with
    | |- context [run answer (poster_node ?s1) ?w1] =>
        set (s' := s1); set (w' := w1)
    end.
    assert (Hs' : pr_diff s' = Some d)
      by (subst s'; destruct decision; exact Hdiff).
    pose proof (returns_all_run _ _ (poster_returns_messages s') answer w')
      as Hpost.
    exists d. eexists.
    destruct (out (run answer (poster_node s') w')) as [u'|e] eqn:Hout';
      eexists; unfold store_of; cbn [fst snd];
      (split; [apply lookup_insert_eq|]); (split; [exact Hdiff|]);
      (split; [apply lookup_insert_eq|]); cbn [values].
    - destruct (apply_update_messages_only u' s' (Hpost u' eq_refl))
        as (_ & _ & -> & _).
      exact Hs'.
    - exact Hs'. }
  split.
  { intros state.
    apply (returns_all_impl (fun u : update => dom u = {[ "messages" ]}));
      [|apply poster_returns_messages].
    intros u H. apply (messages_only_lookup u _ H); discriminate. }
  intros state H. rewrite (reviewer_node_truthy state H).
  intros resp. cbn. symmetry. apply as_str_truthy, H.
Qed.

Lemma pr_diff_fixed_once_fetched_witness :
  status_of (graph_invoke Demo.helpful graph Demo.acme "pr-42" ∅ 0)
  = Interrupted
  /\ exists d cp1 cp2,
       store_of (graph_invoke Demo.helpful graph Demo.acme "pr-42" ∅ 0)
         !! "pr-42" = Some cp1
       /\ pr_diff (values cp1) = Some d
       /\ store_of (review_run Demo.helpful Demo.acme "pr-42" (Some false) ∅ 0)
            !! "pr-42" = Some cp2
       /\ pr_diff (values cp2) = Some d.
Proof.
  split; [vm_compute; reflexivity|].
  refine (proj1 (proj2
            (pr_diff_fixed_once_fetched Demo.helpful "acme/widgets" 42
               Demo.acme "pr-42" (Some false) ∅ 0)) _).
  vm_compute. reflexivity.
Defined.

(** ** Failures of the collaborators *)

(** Whatever the collaborators do, the Reviewer invokes each of the Diff
    Fetcher and the reasoning collaborator at most once. *)
Lemma reviewer_calls_bounded {W : Type} (answer : collaborators W)
    (state : ReviewState) (w : W) :
  count is_fetch (calls (run answer (reviewer_node state) w)) <= 1
  /\ count is_chain (calls (run answer (reviewer_node state) w)) <= 1.
Proof.
  destruct (opt_str_truthy (pr_diff state)) eqn:H.
  - rewrite (reviewer_node_truthy state H), run_analysis.
    destruct (answer _ w) as [[resp|e] w']; cbn; lia.
  - rewrite (reviewer_node_falsy state H), run_invoke.
    destruct (answer _ w) as [[d|e] w']; [|cbn; lia].
    rewrite run_analysis.
    destruct (answer _ w') as [[resp|e] w'']; cbn; lia.
Qed.

(** Whatever the collaborators do, the Poster makes at most one
    invocation. *)
Lemma poster_calls_bounded {W : Type} (answer : collaborators W)
    (state : ReviewState) (w : W) :
  length (calls (run answer (poster_node state) w)) <= 1.
Proof.
  destruct (poster_calls answer state w) as [-> | ->]; simpl; lia.
Qed.

(** C9: an exception raised by a collaborator leaves the enclosing step as
    that same exception, with no further invocation and no second attempt,
    and reaches the invoker of the runner as the failure of the engine call.
    (1) The Diff Fetcher raises: the Reviewer raises it after that single
    invocation, the reasoning collaborator is not invoked.  (2) The
    reasoning collaborator raises, on a diff kept or fetched: the Reviewer
    raises it, having invoked that collaborator once.  (3) The posting
    collaborator raises: the Poster raises it after that single invocation.
    In all runs each collaborator is invoked at most once per step. *)
Theorem collaborator_errors_propagate {W : Type} (answer : collaborators W)
    (state : ReviewState) (thread : string) (db : store) (w : W) (e : exn) :
  (forall w1,
     opt_str_truthy (pr_diff state) = false ->
     answer (fetch_pr_diff (repo_name state) (pr_number state)) w
     = (Raised e, w1) ->
     run answer (reviewer_node state) w
     = mkRan (Raised e) w1
         [fetch_pr_diff (repo_name state) (pr_number state)]
     /\ status_of (graph_invoke answer graph state thread db w) = Failed e)
  /\ (forall d w1 w2,
        (if opt_str_truthy (pr_diff state)
         then pr_diff state = Some d /\ w1 = w
         else answer (fetch_pr_diff (repo_name state) (pr_number state)) w
              = (Returned d, w1)) ->
        answer (chain prompt (repo_name state) d) w1
        = (Raised e, w2) ->
        run answer (reviewer_node state) w
        = mkRan (Raised e) w2
            ((if opt_str_truthy (pr_diff state) then []
              else [fetch_pr_diff (repo_name state) (pr_number state)])
             ++ [chain prompt (repo_name state) d])
        /\ status_of (graph_invoke answer graph state thread db w)
           = Failed e)
  /\ (forall w1,
        review_approved state = true ->
        proposed_comments state <> [] ->
        answer (post_pr_review (repo_name state) (pr_number state)
                  (map model_dump (proposed_comments state))) w
        = (Raised e, w1) ->
        run answer (poster_node state) w
        = mkRan (Raised e) w1
            [post_pr_review (repo_name state) (pr_number state)
               (map model_dump (proposed_comments state))]
        /\ (db !! thread = Some {| values := state; next := ["poster"] |} ->
            status_of (graph_resume answer graph thread db w) = Failed e))
  /\ count is_fetch (calls (run answer (reviewer_node state) w)) <= 1
  /\ count is_chain (calls (run answer (reviewer_node state) w)) <= 1
  /\ length (calls (run answer (poster_node state) w)) <= 1.
Proof.
  split; [|split; [|split]].
  - intros w1 Hf Hfetch.
    assert (Hrun : run answer (reviewer_node state) w
                   = mkRan (Raised e) w1
                       [fetch_pr_diff (repo_name state) (pr_number state)]).
    { rewrite (reviewer_node_falsy state Hf), run_invoke, Hfetch.
      reflexivity. }
    split; [exact Hrun|].
    rewrite graph_invoke_unfold. cbn zeta. rewrite Hrun. reflexivity.
  - intros d w1 w2 Hdiff Hchain.
    assert (Hrun : run answer (reviewer_node state) w
                   = mkRan (Raised e) w2
                       ((if opt_str_truthy (pr_diff state) then []
                         else [fetch_pr_diff (repo_name state)
                                 (pr_number state)])
                        ++ [chain prompt (repo_name state) d])).
    { destruct (opt_str_truthy (pr_diff state)) eqn:H.
      - destruct Hdiff as [Hd ->].
        rewrite (reviewer_node_truthy state H), Hd. simpl as_str.
        rewrite run_analysis, Hchain. reflexivity.
      - rewrite (reviewer_node_falsy state H), run_invoke, Hdiff.
        rewrite run_analysis, Hchain. reflexivity. }
    split; [exact Hrun|].
    rewrite graph_invoke_unfold. cbn zeta. rewrite Hrun. reflexivity.
  - intros w1 H1 H2 Hpost.
    assert (Hrun : run answer (poster_node state) w
                   = mkRan (Raised e) w1
                       [post_pr_review (repo_name state) (pr_number state)
                          (map model_dump (proposed_comments state))]).
    { rewrite (poster_node_posting state H1 H2), run_invoke, Hpost.
      reflexivity. }
    split; [exact Hrun|].
    intros Hdb. rewrite (graph_resume_unfold answer thread db state w Hdb).
    cbn zeta. rewrite Hrun. reflexivity.
  - pose proof (reviewer_calls_bounded answer state w) as [Hf Hc].
    pose proof (poster_calls_bounded answer state w) as Hp.
    auto.
Qed.

Lemma collaborator_errors_propagate_witness :
  (* the Diff Fetcher fails *)
  (run Demo.broken (reviewer_node Demo.acme) 0
   = mkRan (Raised (Exception "404 Not Found")) 1
       [fetch_pr_diff "acme/widgets" 42]
   /\ status_of (graph_invoke Demo.broken graph Demo.acme "pr-42" ∅ 0)
      = Failed (Exception "404 Not Found"))
  (* the reasoning collaborator fails *)
  /\ (run Demo.llm_down (reviewer_node Demo.acme) 0
      = mkRan (Raised (Exception "rate limit")) 2
          [fetch_pr_diff "acme/widgets" 42;
           chain prompt "acme/widgets" Demo.diff_text]
      /\ status_of (graph_invoke Demo.llm_down graph Demo.acme "pr-42" ∅ 0)
         = Failed (Exception "rate limit"))
  (* the posting collaborator fails *)
  /\ run Demo.broken (poster_node Demo.acme_approved) 0
     = mkRan (Raised (Exception "403 Forbidden")) 1
         [post_pr_review "acme/widgets" 42 [model_dump Demo.sqli_comment]].
Proof.
  split; [|split].
  - exact (proj1 (collaborator_errors_propagate Demo.broken Demo.acme
                    "pr-42" ∅ 0 (Exception "404 Not Found"))
             1 eq_refl eq_refl).
  - exact (proj1 (proj2 (collaborator_errors_propagate Demo.llm_down
                           Demo.acme "pr-42" ∅ 0 (Exception "rate limit")))
             Demo.diff_text 1 2 eq_refl eq_refl).
  - refine (proj1 (proj1 (proj2 (proj2
              (collaborator_errors_propagate Demo.broken Demo.acme_approved
                 "pr-42" ∅ 0 (Exception "403 Forbidden"))))
              1 eq_refl _ eq_refl)).
    discriminate.
Defined.

(** The path of a run at concrete collaborators: the Reviewer returns and
    the run is suspended; the approval is recorded; the Poster posts. *)
Lemma workflow_is_linear_witness :
  status_of (graph_invoke Demo.helpful graph Demo.acme "pr-42" ∅ 0)
  = Interrupted
  /\ path (events_of (graph_invoke Demo.helpful graph Demo.acme "pr-42" ∅ 0))
     = [reviewing; awaiting_approval]
  /\ path (events_of (review_run Demo.helpful Demo.acme "pr-42" (Some true) ∅ 0))
     = [reviewing; awaiting_approval; posting; done].
Proof.
  pose proof (workflow_is_linear Demo.helpful Demo.acme "pr-42" (Some true) ∅ 0)
    as (_ & Hgate & _ & _ & _ & Hfull & _).
  destruct (Hgate _ eq_refl) as (H1 & H2 & _).
  split; [exact H1|]. split; [exact H2|].
  apply Hfull. vm_compute. reflexivity.
Defined.

(** * Further properties of the two nodes *)

(** ** The Poster, whatever the state *)

(** The three shapes of a run of the Poster. *)
Lemma poster_run_cases {W : Type} (answer : collaborators W)
    (state : ReviewState) (w : W) :
  let post := post_pr_review (repo_name state) (pr_number state)
                (map model_dump (proposed_comments state)) in
  (review_approved state && list_truthy (proposed_comments state) = false
   /\ exists m, (m = rejection_text \/ m = no_issues_text)
        /\ run answer (poster_node state) w
           = mkRan (Returned {[ "messages" := VMessages [("ai", m)] ]}) w [])
  \/ (review_approved state && list_truthy (proposed_comments state) = true
      /\ ((exists result w',
             run answer (poster_node state) w
             = mkRan (Returned {[ "messages" :=
                          VMessages [("ai", success_marker +:+ result)] ]})
                     w' [post])
          \/ (exists e w',
                run answer (poster_node state) w = mkRan (Raised e) w' [post]))).
Proof.
  intros post.
  destruct (review_approved state) eqn:H1.
  - destruct (proposed_comments state) as [|c cs] eqn:H2.
    + left. split; [reflexivity|]. exists no_issues_text.
      split; [auto|]. rewrite (poster_node_no_issues state H1 H2).
      reflexivity.
    + right. split; [reflexivity|].
      assert (Hne : proposed_comments state <> []) by congruence.
      rewrite (poster_node_posting state H1 Hne), run_invoke.
      subst post. rewrite <- H2.
      destruct (answer _ w) as [[result|e] w']; [left|right]; eauto.
  - left. split; [reflexivity|]. exists rejection_text.
    split; [auto|]. rewrite (poster_node_rejected state H1). reflexivity.
Qed.

Lemma prefix_success_marker (result : string) :
  String.prefix success_marker (success_marker +:+ result) = true.
Proof. destruct result; reflexivity. Qed.

(** X1: the Poster invokes the posting collaborator once when the state is
    approved and has comments, and not at all otherwise; it never invokes
    the Diff Fetcher or the reasoning collaborator. *)
Theorem poster_posts_iff_approved_with_comments {W : Type}
    (answer : collaborators W) (state : ReviewState) (w : W) :
  let r := run answer (poster_node state) w in
  count is_post (calls r)
  = (if review_approved state && list_truthy (proposed_comments state)
     then 1 else 0)
  /\ count is_fetch (calls r) = 0
  /\ count is_chain (calls r) = 0.
Proof.
  intros r. subst r.
  destruct (poster_run_cases answer state w)
    as [(-> & m & _ & ->) | (-> & [(result & w' & ->) | (e & w' & ->)])];
    repeat split.
Qed.

(** X2: the status message of the Poster tells whether a review was posted:
    a returned dict holds exactly one message, of role [ai], and that
    message starts with the success marker exactly when the posting
    collaborator was invoked.  When the Poster raises instead, the posting
    collaborator was invoked. *)
Theorem poster_message_tells_posting {W : Type} (answer : collaborators W)
    (state : ReviewState) (w : W) :
  let r := run answer (poster_node state) w in
  match out r with
  | Returned u =>
      exists m, u = {[ "messages" := VMessages [("ai", m)] ]}
        /\ (String.prefix success_marker m = true
            <-> count is_post (calls r) = 1)
  | Raised e => count is_post (calls r) = 1
  end.
Proof.
  intros r. subst r.
  destruct (poster_run_cases answer state w)
    as [(_ & m & Hm & ->) | (_ & [(result & w' & ->) | (e & w' & ->)])];
    cbn [out calls].
  - exists m. split; [reflexivity|].
    destruct Hm as [-> | ->]; split; intros H; discriminate H.
  - eexists. split; [reflexivity|].
    split; intros _; [reflexivity | apply prefix_success_marker].
  - reflexivity.
Qed.

(** X3: the Poster reads four fields of the record and nothing else: two
    states with the same repository, change-request number, proposed
    comments and approval flag (whatever their diffs and message logs) give
    the same runs against the same collaborators. *)
Theorem poster_ignores_diff_and_log {W : Type} (answer : collaborators W)
    (s1 s2 : ReviewState) (w : W) :
  repo_name s1 = repo_name s2 ->
  pr_number s1 = pr_number s2 ->
  proposed_comments s1 = proposed_comments s2 ->
  review_approved s1 = review_approved s2 ->
  run answer (poster_node s1) w = run answer (poster_node s2) w.
Proof.
  intros Hr Hn Hc Ha. unfold poster_node. rewrite Hr, Hn, Hc, Ha.
  reflexivity.
Qed.

Lemma poster_ignores_diff_and_log_witness :
  run Demo.helpful (poster_node Demo.acme_approved) 0
  = run Demo.helpful
      (poster_node
         {| repo_name := "acme/widgets"; pr_number := 42; pr_diff := None;
            proposed_comments := [Demo.sqli_comment];
            review_approved := true;
            messages := [("human", "please review")] |}) 0.
Proof.
  exact (poster_ignores_diff_and_log Demo.helpful Demo.acme_approved _ 0
           eq_refl eq_refl eq_refl eq_refl).
Defined.

(** ** The Reviewer, whatever the state *)

(** X4: the Reviewer never invokes the posting collaborator, and its
    invocations come in one order: the Diff Fetcher alone (which then
    raised), or the reasoning collaborator alone, or the Diff Fetcher and
    then the reasoning collaborator.  The reasoning collaborator is invoked
    with the fixed template and the repository of the state. *)
Theorem reviewer_invocation_order {W : Type} (answer : collaborators W)
    (state : ReviewState) (w : W) :
  let r := run answer (reviewer_node state) w in
  let fetch := fetch_pr_diff (repo_name state) (pr_number state) in
  count is_post (calls r) = 0
  /\ ((calls r = [fetch] /\ exists e, out r = Raised e)
      \/ (exists d, calls r = [chain prompt (repo_name state) d]
                    /\ pr_diff state = Some d)
      \/ (exists d, calls r = [fetch; chain prompt (repo_name state) d])).
Proof.
  intros r fetch. split; [apply reviewer_never_posts|]. subst r.
  destruct (opt_str_truthy (pr_diff state)) eqn:H.
  - right. left. exists (as_str (pr_diff state)).
    rewrite (reviewer_node_truthy state H), run_analysis.
    split; [|apply as_str_truthy, H].
    destruct (answer _ w) as [[resp|e] w']; reflexivity.
  - rewrite (reviewer_node_falsy state H), run_invoke. fold fetch.
    destruct (answer fetch w) as [[d|e] w'].
    + right. right. exists d. rewrite run_analysis.
      destruct (answer _ w') as [[resp|e] w'']; reflexivity.
    + left. split; [reflexivity | eauto].
Qed.

(** X5: the Reviewer reads the repository, the change-request number and
    the diff of the record and nothing else: an approval flag set in
    advance, comments already proposed or messages already logged change
    nothing of its run. *)
Theorem reviewer_ignores_approval_and_comments {W : Type}
    (answer : collaborators W) (s1 s2 : ReviewState) (w : W) :
  repo_name s1 = repo_name s2 ->
  pr_number s1 = pr_number s2 ->
  pr_diff s1 = pr_diff s2 ->
  run answer (reviewer_node s1) w = run answer (reviewer_node s2) w.
Proof.
  intros Hr Hn Hd. unfold reviewer_node. rewrite Hr, Hn, Hd. reflexivity.
Qed.

Lemma reviewer_ignores_approval_and_comments_witness :
  run Demo.helpful (reviewer_node Demo.acme_approved) 0
  = run Demo.helpful
      (reviewer_node (with_pr_diff (Some Demo.diff_text) Demo.acme)) 0.
Proof.
  exact (reviewer_ignores_approval_and_comments Demo.helpful
           Demo.acme_approved _ 0 eq_refl eq_refl eq_refl).
Defined.

(** ** The record after each step *)

Lemma apply_update_reviewer_dict (d : string) (cs : list PullRequestComment)
    (s : ReviewState) :
  apply_update {[ "pr_diff" := VText d; "proposed_comments" := VComments cs ]}
               s
  = {| repo_name := repo_name s; pr_number := pr_number s;
       pr_diff := Some d; proposed_comments := cs;
       review_approved := review_approved s; messages := messages s |}.
Proof. reflexivity. Qed.

Lemma apply_update_poster_dict (ms : list message) (s : ReviewState) :
  apply_update {[ "messages" := VMessages ms ]} s
  = {| repo_name := repo_name s; pr_number := pr_number s;
       pr_diff := pr_diff s; proposed_comments := proposed_comments s;
       review_approved := review_approved s; messages := messages s ++ ms |}.
Proof. reflexivity. Qed.

Lemma decided_unfold (decision : option bool) (s : ReviewState) :
  decided decision s
  = {| repo_name := repo_name s; pr_number := pr_number s;
       pr_diff := pr_diff s; proposed_comments := proposed_comments s;
       review_approved := default (review_approved s) decision;
       messages := messages s |}.
Proof. destruct decision; [reflexivity | destruct s; reflexivity]. Qed.

(** A dict returned by the Reviewer is built from a diff and from a reply of
    the reasoning collaborator to that diff. *)
Lemma reviewer_returned {W : Type} (answer : collaborators W)
    (state : ReviewState) (w : W) (u : update) :
  out (run answer (reviewer_node state) w) = Returned u ->
  exists d w1 resp,
    (answer (chain prompt (repo_name state) d) w1).1 = Returned resp
    /\ u = {[ "pr_diff" := VText d;
              "proposed_comments" := VComments (comments resp) ]}.
Proof.
  destruct (opt_str_truthy (pr_diff state)) eqn:H.
  - rewrite (reviewer_node_truthy state H), run_analysis.
    destruct (answer _ w) as [[resp|e] w'] eqn:Hc; cbn [out]; [|discriminate].
    intros [= <-]. exists (as_str (pr_diff state)), w, resp.
    rewrite Hc. split; reflexivity.
  - rewrite (reviewer_node_falsy state H), run_invoke.
    destruct (answer _ w) as [[d|e] w']; cbn [out]; [|discriminate].
    rewrite run_analysis.
    destruct (answer _ w') as [[resp|e] w''] eqn:Hc; cbn [out];
      [|discriminate].
    intros [= <-]. exists d, w', resp. rewrite Hc. split; reflexivity.
Qed.

(** The run of the Reviewer when the collaborators reply. *)
Lemma reviewer_run_returns {W : Type} (answer : collaborators W)
    (state : ReviewState) (w w1 w2 : W) (d : string) (resp : ReviewResponse) :
  (if opt_str_truthy (pr_diff state)
   then pr_diff state = Some d /\ w1 = w
   else answer (fetch_pr_diff (repo_name state) (pr_number state)) w
        = (Returned d, w1)) ->
  answer (chain prompt (repo_name state) d) w1 = (Returned resp, w2) ->
  run answer (reviewer_node state) w
  = mkRan (Returned {[ "pr_diff" := VText d;
                       "proposed_comments" := VComments (comments resp) ]})
      w2
      ((if opt_str_truthy (pr_diff state) then []
        else [fetch_pr_diff (repo_name state) (pr_number state)])
       ++ [chain prompt (repo_name state) d]).
Proof.
  intros Hdiff Hchain. destruct (opt_str_truthy (pr_diff state)) eqn:H.
  - destruct Hdiff as [Hd ->].
    rewrite (reviewer_node_truthy state H), Hd. simpl as_str.
    rewrite run_analysis, Hchain. reflexivity.
  - rewrite (reviewer_node_falsy state H), run_invoke, Hdiff.
    rewrite run_analysis, Hchain. reflexivity.
Qed.

(** X6: running the Reviewer again, on the record updated with the dict it
    returned, fetches nothing and analyses the recorded diff when that diff
    is not empty; when the diff it recorded is the empty text, the second
    run invokes the Diff Fetcher again. *)
Theorem reviewer_rerun_refetches_only_empty_diff {W : Type}
    (answer others : collaborators W) (state : ReviewState) (w w' : W)
    (u : update) :
  out (run answer (reviewer_node state) w) = Returned u ->
  exists d,
    pr_diff (apply_update u state) = Some d
    /\ count is_fetch
         (calls (run others (reviewer_node (apply_update u state)) w'))
       = (if str_truthy d then 0 else 1)
    /\ (str_truthy d = true ->
        calls (run others (reviewer_node (apply_update u state)) w')
        = [chain prompt (repo_name state) d]).
Proof.
  intros Hout.
  destruct (reviewer_returned answer state w u Hout) as (d & w1 & resp & _ & ->).
  exists d. rewrite apply_update_reviewer_dict.
  split; [reflexivity|]. split.
  - rewrite reviewer_fetch_count. reflexivity.
  - intros Hd.
    rewrite reviewer_node_truthy by exact Hd. rewrite run_analysis.
    cbn [pr_diff repo_name as_str default].
    destruct (others _ w') as [[resp'|e] w'']; reflexivity.
Qed.

Lemma reviewer_rerun_refetches_only_empty_diff_witness :
  exists d,
    pr_diff (apply_update
               {[ "pr_diff" := VText Demo.diff_text;
                  "proposed_comments" := VComments [Demo.sqli_comment] ]}
               Demo.acme) = Some d
    /\ count is_fetch
         (calls (run Demo.broken
                   (reviewer_node
                      (apply_update
                         {[ "pr_diff" := VText Demo.diff_text;
                            "proposed_comments" :=
                              VComments [Demo.sqli_comment] ]}
                         Demo.acme)) 7))
       = (if str_truthy d then 0 else 1).
Proof.
  destruct (reviewer_rerun_refetches_only_empty_diff Demo.helpful Demo.broken
              Demo.acme 0 7 _ eq_refl) as (d & H1 & H2 & _).
  exists d. split; assumption.
Defined.

(** An empty diff is fetched again on a second run. *)
Example reviewer_rerun_empty_diff :
  calls (run Demo.quiet
           (reviewer_node
              (apply_update
                 {[ "pr_diff" := VText "";
                    "proposed_comments" := VComments [] ]}
                 Demo.acme)) 0)
  = [fetch_pr_diff "acme/widgets" 42; chain prompt "acme/widgets" ""].
Proof. reflexivity. Qed.

(** * Further properties of the compiled workflow *)

(** X7: the call that starts a run never invokes the posting collaborator:
    whatever the input record (even one approved in advance and already
    holding comments) and whatever the collaborators do, nothing is posted
    before the run has been suspended and resumed. *)
Theorem nothing_posted_before_resume {W : Type} (answer : collaborators W)
    (input : ReviewState) (thread : string) (db : store) (w : W) :
  count is_post
    (called (events_of (graph_invoke answer graph input thread db w))) = 0.
Proof.
  rewrite graph_invoke_unfold. cbn zeta.
  pose proof (reviewer_never_posts answer input w) as H.
  destruct (out (run answer (reviewer_node input) w));
    unfold events_of; cbn [snd]; read_events; exact H.
Qed.

(** X8: over a whole run (start, external write, resume) each collaborator
    is invoked at most once, so a run makes at most three invocations. *)
Theorem run_invokes_each_collaborator_once {W : Type}
    (answer : collaborators W) (input : ReviewState) (thread : string)
    (decision : option bool) (db : store) (w : W) :
  let log := called (events_of (review_run answer input thread decision db w))
  in
  count is_fetch log <= 1
  /\ count is_chain log <= 1
  /\ count is_post log <= 1
  /\ length log <= 3.
Proof.
  intros log. subst log. rewrite review_run_unfold. cbn zeta.
  pose proof (reviewer_calls_bounded answer input w) as [Hf Hc].
  pose proof (reviewer_never_posts answer input w) as Hp.
  assert (Hlen : length (calls (run answer (reviewer_node input) w)) <= 2).
  { destruct (opt_str_truthy (pr_diff input)) eqn:H.
    - rewrite (reviewer_node_truthy input H), run_analysis.
      destruct (answer _ w) as [[resp|e] w']; simpl; lia.
    - rewrite (reviewer_node_falsy input H), run_invoke.
      destruct (answer _ w) as [[d|e] w']; [|simpl; lia].
      rewrite run_analysis.
      destruct (answer _ w') as [[resp|e] w'']; simpl; lia. }
  destruct (out (run answer (reviewer_node input) w)) as [u|e].
  - match goal with
    | |- context [run answer (poster_node ?s1) ?w1] =>
        set (s' := s1); set (w' := w1)
    end.
    destruct (poster_calls answer s' w') as [Hq|Hq];
      destruct (out (run answer (poster_node s') w'));
      unfold events_of; cbn [snd]; read_events; rewrite Hq;
      unfold count in *; rewrite ?List.filter_app, ?length_app; simpl; lia.
  - unfold events_of; cbn [snd]; read_events. lia.
Qed.

(** X9: a run whose record is not approved when it is resumed posts nothing:
    if the external actor recorded a refusal, or recorded nothing on an
    input that was not approved, no invocation of the whole run is a post,
    whatever the Reviewer proposed; and if the run finishes, its saved log
    is the log of the input followed by the rejection message. *)
Theorem unapproved_run_never_posts {W : Type} (answer : collaborators W)
    (input : ReviewState) (thread : string) (decision : option bool)
    (db : store) (w : W) :
  default (review_approved input) decision = false ->
  let whole := review_run answer input thread decision db w in
  count is_post (called (events_of whole)) = 0
  /\ (status_of whole = Finished ->
      exists cp, store_of whole !! thread = Some cp
        /\ messages (values cp) = messages input ++ [("ai", rejection_text)]).
Proof.
  intros Hflag whole. subst whole. rewrite review_run_unfold. cbn zeta.
  pose proof (reviewer_never_posts answer input w) as Hp.
  destruct (out (run answer (reviewer_node input) w)) as [u|e] eqn:Hout.
  - destruct (reviewer_returned answer input w u Hout)
      as (d & w1 & resp & _ & ->).
    rewrite apply_update_reviewer_dict, decided_unfold.
    cbn [repo_name pr_number pr_diff proposed_comments review_approved
         messages].
    rewrite Hflag.
    match goal with
    | |- context [run answer (poster_node ?s1) ?w1] =>
        set (s' := s1); set (w' := w1)
    end.
    rewrite (poster_node_rejected s' eq_refl). cbn [run out world calls].
    unfold events_of, status_of, store_of. cbn [fst snd]. read_events.
    split; [exact Hp|].
    intros _. eexists. split; [apply lookup_insert_eq|].
    cbn [values]. rewrite apply_update_poster_dict. reflexivity.
  - unfold events_of, status_of. cbn [fst snd]. read_events.
    split; [exact Hp | discriminate].
Qed.

Lemma unapproved_run_never_posts_witness :
  count is_post
    (called (events_of
       (review_run Demo.helpful Demo.acme "pr-42" (Some false) ∅ 0))) = 0.
Proof.
  exact (proj1 (unapproved_run_never_posts Demo.helpful Demo.acme "pr-42"
                  (Some false) ∅ 0 eq_refl)).
Defined.

(** X10: a run whose review finds nothing posts nothing, approved or not:
    if every reply of the reasoning collaborator carries an empty comment
    list, no invocation of the whole run is a post. *)
Theorem clean_review_never_posts {W : Type} (answer : collaborators W)
    (input : ReviewState) (thread : string) (decision : option bool)
    (db : store) (w : W) :
  (forall template repo diff w0 resp,
     (answer (chain template repo diff) w0).1 = Returned resp ->
     comments resp = []) ->
  count is_post
    (called (events_of (review_run answer input thread decision db w))) = 0.
Proof.
  intros Hclean. rewrite review_run_unfold. cbn zeta.
  pose proof (reviewer_never_posts answer input w) as Hp.
  destruct (out (run answer (reviewer_node input) w)) as [u|e] eqn:Hout.
  - destruct (reviewer_returned answer input w u Hout)
      as (d & w1 & resp & Hresp & ->).
    rewrite (Hclean _ _ _ _ _ Hresp).
    rewrite apply_update_reviewer_dict, decided_unfold.
    cbn [repo_name pr_number pr_diff proposed_comments review_approved
         messages].
    match goal with
    | |- context [run answer (poster_node ?s1) ?w1] =>
        set (s' := s1); set (w' := w1)
    end.
    assert (Hcalls : calls (run answer (poster_node s') w') = []).
    { destruct (review_approved s') eqn:Ha.
      - rewrite (poster_node_no_issues s' Ha eq_refl). reflexivity.
      - rewrite (poster_node_rejected s' Ha). reflexivity. }
    destruct (out (run answer (poster_node s') w'));
      unfold events_of; cbn [snd]; read_events;
      rewrite Hcalls, ?app_nil_r; exact Hp.
  - unfold events_of. cbn [snd]. read_events. exact Hp.
Qed.

Lemma clean_review_never_posts_witness :
  count is_post
    (called (events_of
       (review_run Demo.quiet Demo.acme "pr-42" (Some true) ∅ 0))) = 0.
Proof.
  refine (clean_review_never_posts Demo.quiet Demo.acme "pr-42" (Some true)
            ∅ 0 _).
  intros template repo diff w0 resp H. simpl in H.
  injection H as <-. reflexivity.
Defined.

(** X11: an approved run posts exactly what the Reviewer proposed.  When the
    collaborators reply, the reasoning collaborator returns at least one
    comment and the external actor records the approval, the run finishes;
    its invocations are the fetch (if the input had no diff), the analysis,
    and one post of the plain mappings of the comments returned, in order,
    for the repository and change request of the input; and the saved
    record holds those comments, the approval, and the log of the input
    followed by the success message. *)
Theorem approved_run_posts_the_review {W : Type} (answer : collaborators W)
    (input : ReviewState) (thread : string) (db : store) (w w1 w2 w3 : W)
    (d result : string) (resp : ReviewResponse) :
  (if opt_str_truthy (pr_diff input)
   then pr_diff input = Some d /\ w1 = w
   else answer (fetch_pr_diff (repo_name input) (pr_number input)) w
        = (Returned d, w1)) ->
  answer (chain prompt (repo_name input) d) w1 = (Returned resp, w2) ->
  comments resp <> [] ->
  answer (post_pr_review (repo_name input) (pr_number input)
            (map model_dump (comments resp))) w2
  = (Returned result, w3) ->
  let whole := review_run answer input thread (Some true) db w in
  status_of whole = Finished
  /\ world_of whole = w3
  /\ called (events_of whole)
     = (if opt_str_truthy (pr_diff input) then []
        else [fetch_pr_diff (repo_name input) (pr_number input)])
       ++ [chain prompt (repo_name input) d;
           post_pr_review (repo_name input) (pr_number input)
             (map model_dump (comments resp))]
  /\ store_of whole !! thread
     = Some {| values :=
                 {| repo_name := repo_name input;
                    pr_number := pr_number input;
                    pr_diff := Some d;
                    proposed_comments := comments resp;
                    review_approved := true;
                    messages := messages input
                                ++ [("ai", success_marker +:+ result)] |};
               next := [] |}.
Proof.
  intros Hdiff Hchain Hne Hpost whole. subst whole.
  rewrite review_run_unfold. cbn zeta.
  rewrite (reviewer_run_returns answer input w w1 w2 d resp Hdiff Hchain).
  cbn [out world calls].
  rewrite apply_update_reviewer_dict, decided_unfold.
  cbn [repo_name pr_number pr_diff proposed_comments review_approved
       messages default].
  match goal with
  | |- context [run answer (poster_node ?s1) w2] => set (s' := s1)
  end.
  rewrite (poster_node_posting s' eq_refl Hne), run_invoke.
  cbn [repo_name pr_number proposed_comments s']. rewrite Hpost.
  cbn [run out world calls].
  unfold status_of, world_of, events_of, store_of. cbn [fst snd].
  read_events.
  split; [reflexivity|]. split; [reflexivity|].
  split.
  - destruct (opt_str_truthy (pr_diff input)); reflexivity.
  - rewrite lookup_insert_eq, apply_update_poster_dict. reflexivity.
Qed.

Lemma approved_run_posts_the_review_witness :
  let whole := review_run Demo.helpful Demo.acme "pr-42" (Some true) ∅ 0 in
  status_of whole = Finished
  /\ world_of whole = 3
  /\ called (events_of whole)
     = [fetch_pr_diff "acme/widgets" 42;
        chain prompt "acme/widgets" Demo.diff_text;
        post_pr_review "acme/widgets" 42 [model_dump Demo.sqli_comment]].
Proof.
  intros whole.
  pose proof (approved_run_posts_the_review Demo.helpful Demo.acme "pr-42" ∅
                0 1 2 3 Demo.diff_text "Review posted."
                (ReviewResponse_new (Some [Demo.sqli_comment]))
                eq_refl eq_refl ltac:(discriminate) eq_refl)
    as (H1 & H2 & H3 & _).
  repeat split; assumption.
Defined.
